(** * The history mix graph of the country panel

    A shallow embedding of [web/src/components/countryhistorymixgraph.js]:
    the value-scale selector [getValuesInfo], the layer-data builder
    [prepareGraphData] and the interaction handlers of the
    [CountryHistoryMixGraph] component.

    JavaScript numbers are IEEE 754 binary64 values, so they are embedded as
    Rocq's primitive floats; plain objects used as maps are [gmap string _];
    a thrown [TypeError] is an explicit outcome of the [completion] monad. *)

From Stdlib Require Import Floats ZArith Lia Bool.
From stdpp Require Import base option list strings gmap fin_maps.

(** ** JavaScript values and the numeric primitives the component uses *)

Module JS.

(** The values a field of an API record can hold. *)
Inductive value :=
| Undefined
| Null
| Num (x : float).

(** [ToNumber] of the language specification, on these values. *)
Definition ToNumber (v : value) : float :=
  match v with
  | Undefined => nan
  | Null => 0%float
  | Num x => x
  end.

(** [a + b] on values that are not strings: numeric addition. *)
Definition add (a b : value) : value := Num (ToNumber a + ToNumber b)%float.

(** [a / b]. *)
Definition div (a b : value) : value := Num (ToNumber a / ToNumber b)%float.

(** [a < b] and [a >= b] (the abstract relational comparison on numbers). *)
Definition lt (a b : value) : bool := (ToNumber a <? ToNumber b)%float.
Definition ge (a b : value) : bool := (ToNumber b <=? ToNumber a)%float.

(** [v != null]: loose inequality, false exactly on [null] and [undefined]. *)
Definition neq_null (v : value) : bool :=
  match v with
  | Undefined | Null => false
  | Num _ => true
  end.

(** [v === undefined]. *)
Definition is_undefined (v : value) : bool :=
  match v with
  | Undefined => true
  | _ => false
  end.

(** [Number.isFinite(v)]: no coercion, so only finite numbers pass. *)
Definition Number_isFinite (v : value) : bool :=
  match v with
  | Num x => is_finite x
  | _ => false
  end.

(** [Math.min(a, b)] on numbers: NaN if either is NaN, and -0 below +0. *)
Definition Math_min (a b : float) : float :=
  if is_nan a || is_nan b then nan
  else if (a <? b)%float then a
  else if (b <? a)%float then b
  else if get_sign a then a else b.

(** [Math.max(a, b)] on numbers: NaN if either is NaN, and +0 above -0. *)
Definition Math_max (a b : float) : float :=
  if is_nan a || is_nan b then nan
  else if (a <? b)%float then b
  else if (b <? a)%float then a
  else if get_sign a then b else a.

(** [s.indexOf(pat)]: position of the first occurrence, or -1. *)
Definition indexOf (s pat : string) : Z :=
  match String.index 0 pat s with
  | Some i => Z.of_nat i
  | None => (-1)%Z
  end.

(** [s.replace(pat, by)] with a string pattern: the first occurrence only. *)
Definition replace (s pat by_ : string) : string :=
  match String.index 0 pat s with
  | Some i =>
      String.substring 0 i s +:+ by_ +:+
      String.substring (i + String.length pat)
        (String.length s - (i + String.length pat)) s
  | None => s
  end.

(** [(o || {})[k]]: reading a key of a possibly absent object. *)
Definition get_or_empty (o : option (gmap string value)) (k : string) : value :=
  default Undefined (default ∅ o !! k).

End JS.

(** ** Signs of binary64 numbers *)

(** The sign carried by a specification float, when it is not NaN. *)
Definition has_sign (s : bool) (x : spec_float) : Prop :=
  match x with
  | S754_zero s' | S754_infinity s' | S754_finite s' _ _ => s' = s
  | S754_nan => False
  end.


(** ** Completions: a normal result, or a thrown [TypeError]

    Reading a property of [undefined] throws; nothing in the component
    catches it, so the exception aborts the enclosing loops. *)

Inductive completion (A : Type) :=
| Normal (a : A)
| TypeError.
Arguments Normal {A} a.
Arguments TypeError {A}.

#[global] Instance completion_ret : MRet completion := @Normal.
#[global] Instance completion_bind : MBind completion :=
  fun A B f m => match m with Normal a => f a | TypeError => TypeError end.

(** [array.forEach(callback)] where the callback updates the captured state. *)
Fixpoint forEach {A S : Type} (callback : S -> A -> completion S)
    (array : list A) (s : S) : completion S :=
  match array with
  | [] => Normal s
  | x :: rest => s' ← callback s x; forEach callback rest s'
  end.

(** Lodash's [forEach(object, callback)]: the own entries of the object, none
    when the object is absent.  The callbacks below write one distinct key per
    entry, so the visiting order does not show in the result. *)
Definition forEachOwn {V S : Type} (callback : S -> string * V -> completion S)
    (object : option (gmap string V)) (s : S) : completion S :=
  forEach callback (map_to_list (default ∅ object)) s.

(** [table[key]] on a table that may be absent: reading a key of [undefined]
    throws, a missing key reads [undefined]. *)
Definition get_prop (table : option (gmap string JS.value)) (key : string)
    : completion JS.value :=
  match table with
  | Some t => Normal (default JS.Undefined (t !! key))
  | None => TypeError
  end.

(** [max] of d3-array with an accessor: the greatest comparable value,
    [undefined] when there is none. *)
Definition d3Max {A : Type} (values : list A) (valueof : A -> JS.value) : JS.value :=
  foldl (fun max d =>
           let value := valueof d in
           if JS.neq_null value
              && (JS.lt max value || (JS.is_undefined max && JS.ge value value))
           then value else max)
        JS.Undefined values.

(** ** The data model *)

(** One observation of the zone history, as the API delivers it. *)
Record HistoryRecord := {
  stateDatetime : string;
  production : option (gmap string JS.value);
  storage : option (gmap string JS.value);
  exchange : option (gmap string JS.value);
  productionCo2Intensities : option (gmap string JS.value);
  dischargeCo2Intensities : option (gmap string JS.value);
  exchangeCo2Intensities : option (gmap string JS.value);
  totalProduction : JS.value;
  totalImport : JS.value;
  totalDischarge : JS.value;
  totalCo2Production : JS.value;
  totalCo2Import : JS.value;
  totalCo2Discharge : JS.value;
}.

(** What a property of a chart datapoint holds. *)
Inductive field :=
| Datetime (s : string)
| Number (x : float)
| Meta (d : HistoryRecord).

(** A chart datapoint [obj]: a plain object keyed by layer name. *)
Abbreviation LayerRecord := (gmap string field).

(** What [formatting.scalePower] returns. *)
Module Format.
Record t := { unit : string; formattingFactor : float }.
End Format.

(** What [getValuesInfo] returns. *)
Module Info.
Record t := { valueAxisLabel : string; valueFactor : float }.
End Info.

(** What [layerFill(key)] returns: a colour of the [modeColor] table, or a
    function of the datapoint (of its [data], the layer record). *)
Inductive fill :=
| FillColor (c : option string)
| FillByDatapoint (f : LayerRecord -> completion string).

(** What [prepareGraphData] returns; the empty object has none of the four. *)
Record GraphData := {
  data : option (list LayerRecord);
  layerKeys : option (list string);
  layerFill : option (string -> fill);
  valueAxisLabel : option string;
}.

Definition emptyObject : GraphData :=
  {| data := None; layerKeys := None; layerFill := None; valueAxisLabel := None |}.

(** ** The component *)

Section CountryHistoryMixGraph.

(** The collaborators imported from [helpers/constants], [helpers/formatting]
    and [helpers/scales]. *)
Variable modeOrder : list string.
Variable modeColor : gmap string string.
Variable scalePower : JS.value -> Format.t.
Variable getCo2Scale : bool -> JS.value -> string.

Definition getValuesInfo (historyData : list HistoryRecord)
    (displayByEmissions : bool) : Info.t :=
  let maxTotalValue :=
    d3Max historyData (fun d =>
      if displayByEmissions
      then JS.div (JS.div (JS.add (JS.add (totalCo2Production d) (totalCo2Import d))
                                  (totalCo2Discharge d))
                          (JS.Num 1e6))
                  (JS.Num 60)
      else JS.add (JS.add (totalProduction d) (totalImport d)) (totalDischarge d)) in
  let format := scalePower maxTotalValue in
  {| Info.valueAxisLabel :=
       if displayByEmissions then "tCO2eq / min" else Format.unit format;
     Info.valueFactor := Format.formattingFactor format |}.

Section Transform.

Variable displayByEmissions : bool.
Variable electricityMixMode : string.
Variable valueFactor : float.

(** The body of [modeOrder.forEach]: one category key [k] of record [d].
    [x] is what [obj[k]] holds after the first assignment. *)
Definition addProduction (d : HistoryRecord) (obj : LayerRecord) (k : string)
    : completion LayerRecord :=
  let isStorage := negb (JS.indexOf k "storage" =? -1)%Z in
  let value :=
    if isStorage
    then JS.Num (-1 * JS.Math_min 0
                        (JS.ToNumber
                           (JS.get_or_empty (storage d)
                              (JS.replace k " storage" ""))))
    else JS.get_or_empty (production d) k in
  let x := (JS.ToNumber value / valueFactor)%float in
  let obj := <[k := Number x]> obj in
  if JS.Number_isFinite value && displayByEmissions && JS.neq_null (JS.Num x)
  then
    if isStorage && (0 <=? x)%float
    then
      i ← get_prop (dischargeCo2Intensities d) (JS.replace k " storage" "");
      mret (<[k := Number (x * (JS.ToNumber i / 1e3 / 60))]> obj)
    else
      i ← get_prop (productionCo2Intensities d) k;
      mret (<[k := Number (x * (JS.ToNumber i / 1e3 / 60))]> obj)
  else mret obj.

(** The body of [forEach(d.exchange, ...)]: one exchange entry. *)
Definition addExchange (d : HistoryRecord) (obj : LayerRecord)
    (entry : string * JS.value) : completion LayerRecord :=
  let '(key, value) := entry in
  let x := JS.Math_max 0 (JS.ToNumber value / valueFactor) in
  let obj := <[key := Number x]> obj in
  if JS.Number_isFinite value && displayByEmissions && JS.neq_null (JS.Num x)
  then
    i ← get_prop (exchangeCo2Intensities d) key;
    mret (<[key := Number (x * (JS.ToNumber i / 1e3 / 60))]> obj)
  else mret obj.

(** The callback of [historyData.map]: the datapoint of record [d]. *)
Definition layerRecord (d : HistoryRecord) : completion LayerRecord :=
  let obj : LayerRecord := {[ "datetime" := Datetime (stateDatetime d) ]} in
  obj ← forEach (addProduction d) modeOrder obj;
  obj ← (if bool_decide (electricityMixMode = "consumption")
         then forEachOwn (addExchange d) (exchange d) obj
         else mret obj);
  mret (<["meta" := Meta d]> obj).

End Transform.

Definition prepareGraphData (historyData : option (list HistoryRecord))
    (colorBlindModeEnabled displayByEmissions : bool)
    (electricityMixMode : string) (exchangeKeys : list string)
    : completion GraphData :=
  match historyData with
  | None | Some [] => mret emptyObject
  | Some historyData =>
      let info := getValuesInfo historyData displayByEmissions in
      let co2ColorScale := getCo2Scale colorBlindModeEnabled in
      data ← mapM (layerRecord displayByEmissions electricityMixMode
                     (Info.valueFactor info)) historyData;
      let layerKeys := modeOrder ++ exchangeKeys in
      let layerFill (key : string) :=
        if bool_decide (key ∈ exchangeKeys)
        then FillByDatapoint (fun d =>
               match d !! "meta" with
               | Some (Meta meta) =>
                   mret (co2ColorScale
                           (JS.get_or_empty (exchangeCo2Intensities meta) key))
               | Some _ => mret (co2ColorScale JS.Undefined)
               | None => TypeError
               end)
        else FillColor (modeColor !! key) in
      mret {| data := Some data;
              layerKeys := Some layerKeys;
              layerFill := Some layerFill;
              valueAxisLabel := Some (Info.valueAxisLabel info) |}
  end.

End CountryHistoryMixGraph.

(** ** The interaction handlers and the component's state *)

Section Handlers.

(** Pointer positions, and the anchoring helper of [helpers/graph]. *)
Variable Position : Type.
Variable getTooltipPosition : bool -> Position -> Position.

(** The payload of a shown tooltip. *)
Record Tooltip := {
  mode : string;
  position : Position;
  zoneData : option field;
}.

(** The two [useState] cells of the component, and the key of the
    application store that [dispatchApplication] writes. *)
Record ComponentState := {
  tooltip : option Tooltip;
  selectedLayerIndex : option nat;
  selectedZoneTimeIndex : option nat;
}.

(** The first render: both cells start at [null]. *)
Definition initialState (storedTimeIndex : option nat) : ComponentState :=
  {| tooltip := None;
     selectedLayerIndex := None;
     selectedZoneTimeIndex := storedTimeIndex |}.

Definition dispatchApplication_selectedZoneTimeIndex (value : option nat)
    (s : ComponentState) : ComponentState :=
  {| tooltip := tooltip s;
     selectedLayerIndex := selectedLayerIndex s;
     selectedZoneTimeIndex := value |}.

Definition setSelectedLayerIndex (value : option nat) (s : ComponentState)
    : ComponentState :=
  {| tooltip := tooltip s;
     selectedLayerIndex := value;
     selectedZoneTimeIndex := selectedZoneTimeIndex s |}.

Definition setTooltip (value : option Tooltip) (s : ComponentState)
    : ComponentState :=
  {| tooltip := value;
     selectedLayerIndex := selectedLayerIndex s;
     selectedZoneTimeIndex := selectedZoneTimeIndex s |}.

Definition backgroundMouseMoveHandler (timeIndex : nat) (s : ComponentState)
    : ComponentState :=
  dispatchApplication_selectedZoneTimeIndex (Some timeIndex) s.

Definition backgroundMouseOutHandler (timeIndex : nat) (s : ComponentState)
    : ComponentState :=
  dispatchApplication_selectedZoneTimeIndex None s.

Definition layerMouseMoveHandler (timeIndex layerIndex : nat) (s : ComponentState)
    : ComponentState :=
  setSelectedLayerIndex (Some layerIndex)
    (dispatchApplication_selectedZoneTimeIndex (Some timeIndex) s).

Definition layerMouseOutHandler (s : ComponentState) : ComponentState :=
  setSelectedLayerIndex None (dispatchApplication_selectedZoneTimeIndex None s).

Definition markerUpdateHandler (isMobile : bool) (position : Position)
    (datapoint : LayerRecord) (layerKey : string) (s : ComponentState)
    : ComponentState :=
  setTooltip (Some {| mode := layerKey;
                      position := getTooltipPosition isMobile position;
                      zoneData := datapoint !! "meta" |}) s.

Definition markerHideHandler (s : ComponentState) : ComponentState :=
  setTooltip None s.

(** The callbacks the area graph can invoke. *)
Inductive event :=
| BackgroundMouseMove (timeIndex : nat)
| BackgroundMouseOut (timeIndex : nat)
| LayerMouseMove (timeIndex layerIndex : nat)
| LayerMouseOut
| MarkerUpdate (position : Position) (datapoint : LayerRecord) (layerKey : string)
| MarkerHide.

Definition handle (isMobile : bool) (s : ComponentState) (e : event)
    : ComponentState :=
  match e with
  | BackgroundMouseMove timeIndex => backgroundMouseMoveHandler timeIndex s
  | BackgroundMouseOut timeIndex => backgroundMouseOutHandler timeIndex s
  | LayerMouseMove timeIndex layerIndex =>
      layerMouseMoveHandler timeIndex layerIndex s
  | LayerMouseOut => layerMouseOutHandler s
  | MarkerUpdate position datapoint layerKey =>
      markerUpdateHandler isMobile position datapoint layerKey s
  | MarkerHide => markerHideHandler s
  end.

(** The state after a sequence of callbacks, from the first render. *)
Definition run (isMobile : bool) (storedTimeIndex : option nat)
    (events : list event) : ComponentState :=
  foldl (handle isMobile) (initialState storedTimeIndex) events.

(** Which tooltip the render shows, if any. *)
Inductive tooltipView :=
| ExchangeTooltip (t : Tooltip)
| ProductionTooltip (t : Tooltip).

Definition renderTooltip (exchangeKeys : list string) (s : ComponentState)
    : option tooltipView :=
  match tooltip s with
  | Some t =>
      if bool_decide (mode t ∈ exchangeKeys)
      then Some (ExchangeTooltip t) else Some (ProductionTooltip t)
  | None => None
  end.

End Handlers.

Arguments mode {Position} _.
Arguments position {Position} _.
Arguments zoneData {Position} _.
Arguments tooltip {Position} _.
Arguments selectedLayerIndex {Position} _.
Arguments selectedZoneTimeIndex {Position} _.
Arguments initialState {Position} _.
Arguments handle {Position} _ _ _ _.
Arguments run {Position} _ _ _ _.
Arguments BackgroundMouseMove {Position} _.
Arguments BackgroundMouseOut {Position} _.
Arguments LayerMouseMove {Position} _ _.
Arguments LayerMouseOut {Position}.
Arguments MarkerUpdate {Position} _ _ _.
Arguments MarkerHide {Position}.

(** ** Derived readings of the transform *)

(** A loop body that, when it returns, has written [val a] at [key a]. *)
Definition writes {A V : Type}
    (callback : gmap string V -> A -> completion (gmap string V))
    (key : A -> string) (val : A -> V) : Prop :=
  forall s a s', callback s a = Normal s' -> s' = <[key a := val a]> s.

Definition isStorage (k : string) : bool := negb (JS.indexOf k "storage" =? -1)%Z.
Definition storageKey (k : string) : string := JS.replace k " storage" "".

(** The raw value of category [k]: the net storage negated and floored at
    zero for a storage category (as the source writes it, [-1 * Math.min(0, s)]),
    the production entry for a generation category. *)
Definition rawValue (d : HistoryRecord) (k : string) : JS.value :=
  if isStorage k
  then JS.Num (-1 * JS.Math_min 0
                      (JS.ToNumber (JS.get_or_empty (storage d) (storageKey k))))
  else JS.get_or_empty (production d) k.

Section Values.

Variable displayByEmissions : bool.
Variable electricityMixMode : string.
Variable valueFactor : float.

(** The number the body of [modeOrder.forEach] leaves at [k] when it returns. *)
Definition categoryValue (d : HistoryRecord) (k : string) : float :=
  let x := (JS.ToNumber (rawValue d k) / valueFactor)%float in
  if JS.Number_isFinite (rawValue d k) && displayByEmissions && JS.neq_null (JS.Num x)
  then
    if isStorage k && (0 <=? x)%float
    then (x * (JS.ToNumber (JS.get_or_empty (dischargeCo2Intensities d) (storageKey k))
               / 1e3 / 60))%float
    else (x * (JS.ToNumber (JS.get_or_empty (productionCo2Intensities d) k)
               / 1e3 / 60))%float
  else x.

(** The number the body of [forEach(d.exchange, ...)] leaves at [key]. *)
Definition exchangeValue (d : HistoryRecord) (entry : string * JS.value) : float :=
  let x := JS.Math_max 0 (JS.ToNumber entry.2 / valueFactor) in
  if JS.Number_isFinite entry.2 && displayByEmissions && JS.neq_null (JS.Num x)
  then (x * (JS.ToNumber (JS.get_or_empty (exchangeCo2Intensities d) entry.1)
             / 1e3 / 60))%float
  else x.

(** The entries of [d.exchange] that the datapoint shows. *)
Definition shownExchange (d : HistoryRecord) : gmap string JS.value :=
  if bool_decide (electricityMixMode = "consumption")
  then default ∅ (exchange d) else ∅.

End Values.

(** The accessor [getValuesInfo] hands to [d3Max], and the peak it obtains. *)
Definition recordTotal (displayByEmissions : bool) (d : HistoryRecord) : JS.value :=
  if displayByEmissions
  then JS.div (JS.div (JS.add (JS.add (totalCo2Production d) (totalCo2Import d))
                              (totalCo2Discharge d))
                      (JS.Num 1e6))
              (JS.Num 60)
  else JS.add (JS.add (totalProduction d) (totalImport d)) (totalDischarge d).

Definition maxTotalValue (historyData : list HistoryRecord)
    (displayByEmissions : bool) : JS.value :=
  d3Max historyData (recordTotal displayByEmissions).

(** What [d3Max] holds after the values [seen]: nothing while every value is
    NaN, otherwise one of the values, a number that none of them exceeds. *)
Definition isMaxOf {A : Type} (q : A -> float) (seen : list A) (max : JS.value)
    : Prop :=
  match max with
  | JS.Undefined => forall a, a ∈ seen -> is_nan (q a) = true
  | JS.Num m =>
      (exists a, a ∈ seen /\ q a = m)
      /\ is_nan m = false
      /\ forall a, a ∈ seen -> (m <? q a)%float = false
  | JS.Null => False
  end.

(** ** The layer fields and the peak as the specification words them *)

(** The carbon intensity that applies to category [k]: the discharge table
    for a storage category, the production table for a generation category. *)
Definition spec_intensityTable (d : HistoryRecord) (k : string)
    : option (gmap string JS.value) :=
  if isStorage k then dischargeCo2Intensities d else productionCo2Intensities d.

Definition spec_intensityKey (k : string) : string :=
  if isStorage k then storageKey k else k.

Definition spec_intensity (d : HistoryRecord) (k : string) : JS.value :=
  JS.get_or_empty (spec_intensityTable d k) (spec_intensityKey k).

(** A category field: the raw value divided by the scale factor and, under
    emissions display with a finite raw value and a non-null normalised
    value, multiplied by the intensity divided by 1000 and by 60. *)
Definition spec_categoryField (displayByEmissions : bool) (scaleFactor : float)
    (d : HistoryRecord) (k : string) : float :=
  let raw := rawValue d k in
  let normalised := (JS.ToNumber raw / scaleFactor)%float in
  if displayByEmissions && JS.Number_isFinite raw && JS.neq_null (JS.Num normalised)
  then (normalised * (JS.ToNumber (spec_intensity d k) / 1000 / 60))%float
  else normalised.

(** An exchange field: the raw value floored at zero, then divided by the
    scale factor, then converted in the same way with the exchange table. *)
Definition spec_exchangeField (displayByEmissions : bool) (scaleFactor : float)
    (d : HistoryRecord) (key : string) (raw : JS.value) : float :=
  let normalised := (JS.Math_max 0 (JS.ToNumber raw) / scaleFactor)%float in
  if displayByEmissions && JS.Number_isFinite raw && JS.neq_null (JS.Num normalised)
  then (normalised
        * (JS.ToNumber (JS.get_or_empty (exchangeCo2Intensities d) key) / 1000 / 60))%float
  else normalised.

(** The peak read literally: the greatest sum of total production, total
    import and total discharge, divided by 1,000,000 and by 60 under
    emissions display. *)
Definition spec_peak (historyData : list HistoryRecord) (displayByEmissions : bool)
    : JS.value :=
  let peak :=
    d3Max historyData (fun d =>
      JS.add (JS.add (totalProduction d) (totalImport d)) (totalDischarge d)) in
  if displayByEmissions
  then JS.div (JS.div peak (JS.Num 1000000)) (JS.Num 60)
  else peak.

(** ** Sample collaborators and records for the worked examples

    [helpers/constants], [helpers/formatting] and [helpers/scales] are not part
    of this file; the examples run the component with these stand-ins. *)

Module Sample.

(** A mode order: generation types, then storage types. *)
Definition modeOrder : list string :=
  ["wind"; "solar"; "hydro"; "nuclear"; "gas"; "coal";
   "hydro storage"; "battery storage"].

Definition modeColor : gmap string string :=
  {[ "gas" := "#bb2f51"; "wind" := "#74cdb9" ]}.

(** A power formatter: kW below 1 MW, MW below 1 GW, GW from there on; the
    kW divisor is the binary64 number that [1e-3] denotes. *)
Definition scalePower (maxPower : JS.value) : Format.t :=
  if JS.lt maxPower (JS.Num 1)
  then {| Format.unit := "kW"; Format.formattingFactor := 0x1.0624dd2f1a9fcp-10 |}
  else if JS.lt maxPower (JS.Num 1000)
       then {| Format.unit := "MW"; Format.formattingFactor := 1 |}
       else {| Format.unit := "GW"; Format.formattingFactor := 1000 |}.

Definition getCo2Scale (colorBlindModeEnabled : bool) (intensity : JS.value)
    : string :=
  if colorBlindModeEnabled then "#fcfafc" else "#2aa364".

(** Gas at 100 MW, 30 MW imported from US, a net battery storage of
    [battery] MW, with every intensity known. *)
Definition record (battery : float) : HistoryRecord := {|
  stateDatetime := "2019-05-21T00:00:00Z";
  production := Some {[ "gas" := JS.Num 100 ]};
  storage := Some {[ "battery" := JS.Num battery ]};
  exchange := Some {[ "US" := JS.Num 30 ]};
  productionCo2Intensities := Some {[ "gas" := JS.Num 500 ]};
  dischargeCo2Intensities := Some {[ "battery" := JS.Num 300 ]};
  exchangeCo2Intensities := Some {[ "US" := JS.Num 400 ]};
  totalProduction := JS.Num 100;
  totalImport := JS.Num 30;
  totalDischarge := JS.Num 40;
  totalCo2Production := JS.Num 3000000000;
  totalCo2Import := JS.Num 720000000;
  totalCo2Discharge := JS.Num 720000000;
|}.

(** The same observation when no intensity is known for gas and for US:
    the tables are there, the entries are not. *)
Definition recordUnknownIntensity : HistoryRecord := {|
  stateDatetime := "2019-05-21T00:00:00Z";
  production := Some {[ "gas" := JS.Num 100 ]};
  storage := Some {[ "battery" := JS.Num (-40) ]};
  exchange := Some {[ "US" := JS.Num 30 ]};
  productionCo2Intensities := Some ∅;
  dischargeCo2Intensities := Some {[ "battery" := JS.Num 300 ]};
  exchangeCo2Intensities := Some ∅;
  totalProduction := JS.Num 100;
  totalImport := JS.Num 30;
  totalDischarge := JS.Num 40;
  totalCo2Production := JS.Num 3000000000;
  totalCo2Import := JS.Num 720000000;
  totalCo2Discharge := JS.Num 720000000;
|}.

(** The same observation delivered without its intensity tables. *)
Definition recordNoTables : HistoryRecord := {|
  stateDatetime := "2019-05-21T00:00:00Z";
  production := Some {[ "gas" := JS.Num 100 ]};
  storage := Some {[ "battery" := JS.Num (-40) ]};
  exchange := Some {[ "US" := JS.Num 30 ]};
  productionCo2Intensities := None;
  dischargeCo2Intensities := None;
  exchangeCo2Intensities := None;
  totalProduction := JS.Num 100;
  totalImport := JS.Num 30;
  totalDischarge := JS.Num 40;
  totalCo2Production := JS.Num 3000000000;
  totalCo2Import := JS.Num 720000000;
  totalCo2Discharge := JS.Num 720000000;
|}.

(** An observation without a production mapping. *)
Definition recordNoProduction : HistoryRecord := {|
  stateDatetime := "2019-05-21T01:00:00Z";
  production := None;
  storage := Some {[ "battery" := JS.Num (-40) ]};
  exchange := Some {[ "US" := JS.Num (-30) ]};
  productionCo2Intensities := Some ∅;
  dischargeCo2Intensities := Some {[ "battery" := JS.Num 300 ]};
  exchangeCo2Intensities := Some {[ "US" := JS.Num 400 ]};
  totalProduction := JS.Num 0;
  totalImport := JS.Num 0;
  totalDischarge := JS.Num 40;
  totalCo2Production := JS.Num 0;
  totalCo2Import := JS.Num 0;
  totalCo2Discharge := JS.Num 720000000;
|}.

Definition prepare (historyData : option (list HistoryRecord))
    (displayByEmissions : bool) (electricityMixMode : string)
    : completion GraphData :=
  prepareGraphData modeOrder modeColor scalePower getCo2Scale
    historyData false displayByEmissions electricityMixMode ["US"].

(** The object a call returns, the empty object standing in for a throw. *)
Definition out (historyData : option (list HistoryRecord))
    (displayByEmissions : bool) (electricityMixMode : string) : GraphData :=
  match prepare historyData displayByEmissions electricityMixMode with
  | Normal o => o
  | TypeError => emptyObject
  end.

(** A pointer position on the chart, anchored as it is on a desktop and
    moved to the left edge on a mobile. *)
Definition getTooltipPosition (isMobile : bool) (position : Z * Z) : Z * Z :=
  if isMobile then (0%Z, position.2) else position.

End Sample.

(** Property [key] of the [i]-th datapoint of a result. *)
Definition fieldAt (result : completion GraphData) (i : nat) (key : string)
    : option field :=
  match result with
  | Normal out => rows ← data out; obj ← rows !! i; obj !! key
  | TypeError => None
  end.

(** Whether a property is a number equal ([===]) to [y]. *)
Definition isNumber (o : option field) (y : float) : bool :=
  match o with
  | Some (Number x) => (x =? y)%float
  | _ => false
  end.

(** ** Readings used by the further properties *)

(** The callbacks that set the tooltip, and those that set the selected
    layer index. *)
Definition isMarkerEvent {Position : Type} (e : event Position) : bool :=
  match e with
  | MarkerUpdate _ _ _ | MarkerHide => true
  | _ => false
  end.

Definition isLayerEvent {Position : Type} (e : event Position) : bool :=
  match e with
  | LayerMouseMove _ _ | LayerMouseOut => true
  | _ => false
  end.

(** Two peaks that are the same number ([===]), or both missing. *)
Definition samePeak (a b : JS.value) : Prop :=
  match a, b with
  | JS.Undefined, JS.Undefined => True
  | JS.Num x, JS.Num y => (x =? y)%float = true
  | _, _ => False
  end.

(** A record for which the emissions conversion reads an intensity table
    that is not there: a category of the mode order with a finite raw value
    and no table, or, in mode "consumption", a finite exchange value and no
    exchange table. *)
Definition readsAbsentTable (modeOrder : list string) (electricityMixMode : string)
    (d : HistoryRecord) : Prop :=
  (exists k,
      k ∈ modeOrder
      /\ JS.Number_isFinite (rawValue d k) = true
      /\ spec_intensityTable d k = None)
  \/ (electricityMixMode = "consumption"
      /\ exchangeCo2Intensities d = None
      /\ exists key raw,
           default ∅ (exchange d) !! key = Some raw
           /\ JS.Number_isFinite raw = true).

(** A name without a space. *)
Definition noSpace (s : string) : Prop :=
  Forall (fun c => c <> Ascii.Space) (String.list_ascii_of_string s).

(** An observation delivered without its totals, and one with a peak in
    the GW range. *)
Definition sampleNoTotals : HistoryRecord := {|
  stateDatetime := "2019-05-21T02:00:00Z";
  production := Some {[ "gas" := JS.Num 100 ]};
  storage := None;
  exchange := None;
  productionCo2Intensities := Some {[ "gas" := JS.Num 500 ]};
  dischargeCo2Intensities := Some ∅;
  exchangeCo2Intensities := Some ∅;
  totalProduction := JS.Undefined;
  totalImport := JS.Undefined;
  totalDischarge := JS.Undefined;
  totalCo2Production := JS.Undefined;
  totalCo2Import := JS.Undefined;
  totalCo2Discharge := JS.Undefined;
|}.

Definition sampleLarge : HistoryRecord := {|
  stateDatetime := "2019-05-21T03:00:00Z";
  production := Some {[ "gas" := JS.Num 2500; "wind" := JS.Null ]};
  storage := Some {[ "battery" := JS.Num 40; "hydro" := JS.Num (-300) ]};
  exchange := Some {[ "US" := JS.Num (-30); "CA" := JS.Null ]};
  productionCo2Intensities := Some {[ "gas" := JS.Num 500 ]};
  dischargeCo2Intensities := Some {[ "hydro" := JS.Num 20 ]};
  exchangeCo2Intensities := Some {[ "US" := JS.Num 400 ]};
  totalProduction := JS.Num 2500;
  totalImport := JS.Num 0;
  totalDischarge := JS.Num 300;
  totalCo2Production := JS.Num 75000000000;
  totalCo2Import := JS.Num 0;
  totalCo2Discharge := JS.Num 360000000;
|}.

Arguments renderTooltip {Position} _ _.
Arguments ExchangeTooltip {Position} _.
Arguments ProductionTooltip {Position} _.

(** The datapoint of the sample observation in power display. *)
Definition sampleDatapoint : LayerRecord :=
  match data (Sample.out (Some [Sample.record (-40)]) false "consumption") with
  | Some (obj :: _) => obj
  | _ => ∅
  end.

(** An observation with no finite value at all: no production, no storage, a
    null exchange, and none of the intensity tables. *)
Definition sampleNoValues : HistoryRecord := {|
  stateDatetime := "2019-05-21T04:00:00Z";
  production := None;
  storage := None;
  exchange := Some {[ "US" := JS.Null ]};
  productionCo2Intensities := None;
  dischargeCo2Intensities := None;
  exchangeCo2Intensities := None;
  totalProduction := JS.Num 0;
  totalImport := JS.Num 0;
  totalDischarge := JS.Num 0;
  totalCo2Production := JS.Num 0;
  totalCo2Import := JS.Num 0;
  totalCo2Discharge := JS.Num 0;
|}.

(** ** Worked values *)

Example indexOf_storage : JS.indexOf "battery storage" "storage" = 8%Z.
Proof. reflexivity. Qed.

Example indexOf_none : JS.indexOf "gas" "storage" = (-1)%Z.
Proof. reflexivity. Qed.

Example replace_storage : JS.replace "battery storage" " storage" "" = "battery".
Proof. reflexivity. Qed.

Example replace_none : JS.replace "gas" " storage" "" = "gas".
Proof. reflexivity. Qed.

Example min_neg : JS.Math_min 0 (-40) = (-40)%float.
Proof. reflexivity. Qed.

Example min_pos : JS.Math_min 0 40 = 0%float.
Proof. reflexivity. Qed.

Example min_undefined : JS.Math_min 0 (JS.ToNumber JS.Undefined) = nan.
Proof. reflexivity. Qed.

Example max_neg_zero : JS.Math_max 0 (-0) = 0%float.
Proof. reflexivity. Qed.

(** The sample observation in power display: factor 1, in MW. *)
Example power_display :
  getValuesInfo Sample.scalePower [Sample.record (-40)] false
  = {| Info.valueAxisLabel := "MW"; Info.valueFactor := 1 |}
  /\ fieldAt (Sample.prepare (Some [Sample.record (-40)]) false "consumption") 0 "gas"
     = Some (Number 100)
  /\ fieldAt (Sample.prepare (Some [Sample.record (-40)]) false "consumption") 0 "wind"
     = Some (Number nan)
  /\ fieldAt (Sample.prepare (Some [Sample.record (-40)]) false "production") 0 "US"
     = None
  /\ fieldAt (Sample.prepare (Some [Sample.record (-40)]) false "consumption") 0 "meta"
     = Some (Meta (Sample.record (-40))).
Proof. repeat split; vm_compute; reflexivity. Qed.

(** The same observation in emissions display: 100 MW of gas at an intensity
    of 500, 40 MW of discharge at 300 and 30 MW of import at 400, per minute. *)
Example emissions_display :
  getValuesInfo Sample.scalePower [Sample.record (-40)] true
  = {| Info.valueAxisLabel := "tCO2eq / min"; Info.valueFactor := 1 |}
  /\ fieldAt (Sample.prepare (Some [Sample.record (-40)]) true "consumption") 0 "gas"
     = Some (Number (100 * (500 / 1000 / 60)))
  /\ fieldAt (Sample.prepare (Some [Sample.record (-40)]) true "consumption")
       0 "battery storage"
     = Some (Number (40 * (300 / 1000 / 60)))
  /\ fieldAt (Sample.prepare (Some [Sample.record (-40)]) true "consumption") 0 "US"
     = Some (Number (30 * (400 / 1000 / 60))).
Proof. repeat split; vm_compute; reflexivity. Qed.

(** An export is floored at zero. *)
Example export_floored :
  fieldAt (Sample.prepare (Some [Sample.recordNoProduction]) false "consumption") 0 "US"
  = Some (Number 0).
Proof. vm_compute. reflexivity. Qed.


(** ** Facts on binary64 arithmetic

    The sign of a quotient or product, read off the specification of the
    primitive operations ([SpecFloat]). *)

Module FloatFacts.

Lemma shr_1_nonneg mrs : (0 <= shr_m mrs)%Z -> (0 <= shr_m (shr_1 mrs))%Z.
Proof.
  destruct mrs as [m r s]; simpl.
  destruct m as [|[p|p|]|[p|p|]]; simpl; lia.
Qed.

Lemma iter_pos_shr_1_nonneg p :
  forall mrs, (0 <= shr_m mrs)%Z -> (0 <= shr_m (SpecFloat.iter_pos shr_1 p mrs))%Z.
Proof.
  induction p as [p IH|p IH|]; intros mrs H; simpl.
  - apply IH, IH, shr_1_nonneg, H.
  - apply IH, IH, H.
  - apply shr_1_nonneg, H.
Qed.

Lemma shr_fexp_nonneg m e l :
  (0 <= m)%Z -> (0 <= shr_m (fst (shr_fexp prec emax m e l)))%Z.
Proof.
  intros H. unfold shr_fexp, shr.
  assert (H0 : (0 <= shr_m (shr_record_of_loc m l))%Z)
    by (destruct l as [|[]]; exact H).
  destruct (_ - e)%Z; simpl; auto using iter_pos_shr_1_nonneg.
Qed.

Lemma round_nearest_even_nonneg m l :
  (0 <= m)%Z -> (0 <= round_nearest_even m l)%Z.
Proof.
  intros H. destruct l as [|[]]; simpl; try lia.
  destruct (Z.even m); lia.
Qed.

(** Rounding keeps the sign it is given and never produces NaN. *)
Lemma binary_round_aux_sign s m e l :
  (0 <= m)%Z -> has_sign s (binary_round_aux prec emax s m e l).
Proof.
  intros H. unfold binary_round_aux.
  pose proof (shr_fexp_nonneg m e l H) as H1.
  destruct (shr_fexp prec emax m e l) as [mrs' e']. simpl in H1.
  pose proof (shr_fexp_nonneg _ e' loc_Exact
                (round_nearest_even_nonneg _ (loc_of_shr_record mrs') H1)) as H2.
  destruct (shr_fexp prec emax _ e' loc_Exact) as [mrs'' e'']. simpl in H2.
  destruct (shr_m mrs''); simpl; try reflexivity; try lia.
  destruct (_ <=? _)%Z; reflexivity.
Qed.

Lemma SFdiv_core_binary_nonneg m1 e1 m2 e2 :
  (0 <= fst (fst (SFdiv_core_binary prec emax (Zpos m1) e1 (Zpos m2) e2)))%Z.
Proof.
  unfold SFdiv_core_binary.
  set (s := (_ - _ - _)%Z).
  set (m' := match s with Zpos _ => _ | Z0 => _ | Zneg _ => _ end).
  assert (Hm : (0 <= m')%Z).
  { subst m'. destruct s; try lia. apply Z.shiftl_nonneg. lia. }
  pose proof (Z.div_pos m' (Zpos m2) Hm ltac:(lia)) as Hq.
  unfold Z.div in Hq.
  destruct (Z.div_eucl m' (Zpos m2)) as [q r]. exact Hq.
Qed.

Lemma SFdiv_finite_sign sx mx ex sy my ey :
  has_sign (xorb sx sy)
    (SF64div (S754_finite sx mx ex) (S754_finite sy my ey)).
Proof.
  unfold SF64div, SFdiv.
  pose proof (SFdiv_core_binary_nonneg mx ex my ey) as H.
  destruct (SFdiv_core_binary prec emax (Zpos mx) ex (Zpos my) ey) as [[mz ez] lz].
  apply binary_round_aux_sign, H.
Qed.

Lemma SFmul_finite_sign sx mx ex sy my ey :
  has_sign (xorb sx sy)
    (SF64mul (S754_finite sx mx ex) (S754_finite sy my ey)).
Proof. apply binary_round_aux_sign. lia. Qed.

Lemma SFcompare_refl_finite s m e :
  SFcompare (S754_finite s m e) (S754_finite s m e) = Some Eq.
Proof.
  simpl. rewrite Z.compare_refl, Pos.compare_cont_refl. by destruct s.
Qed.

(** The primitive tests, read on the specification floats. *)
Lemma is_nan_spec x :
  is_nan x = match Prim2SF x with S754_nan => true | _ => false end.
Proof.
  unfold is_nan. rewrite FloatAxioms.eqb_spec. unfold SFeqb.
  destruct (Prim2SF x) as [s|s| |s m e]; try by destruct s.
  - reflexivity.
  - by rewrite SFcompare_refl_finite.
Qed.

Lemma is_finite_spec x :
  is_finite x =
  match Prim2SF x with S754_zero _ | S754_finite _ _ _ => true | _ => false end.
Proof.
  unfold is_finite, is_infinity. rewrite is_nan_spec, FloatAxioms.eqb_spec, abs_spec.
  change (Prim2SF infinity) with (S754_infinity false).
  by destruct (Prim2SF x) as [s|s| |s m e].
Qed.

Lemma pos_spec x :
  (0 <? x)%float =
  match Prim2SF x with
  | S754_infinity false | S754_finite false _ _ => true
  | _ => false
  end.
Proof.
  rewrite ltb_spec. change (Prim2SF 0) with (S754_zero false).
  by destruct (Prim2SF x) as [s|[]| |[] m e].
Qed.

Lemma nonneg_spec x :
  (0 <=? x)%float =
  match Prim2SF x with
  | S754_zero _ | S754_infinity false | S754_finite false _ _ => true
  | _ => false
  end.
Proof.
  rewrite leb_spec. change (Prim2SF 0) with (S754_zero false).
  by destruct (Prim2SF x) as [s|[]| |[] m e].
Qed.


(** *** Consequences for the JavaScript primitives *)

Lemma Math_max_zero x :
  JS.Math_max 0 x = if is_nan x then nan else if (0 <? x)%float then x else 0%float.
Proof.
  unfold JS.Math_max. change (is_nan 0) with false. simpl.
  destruct (is_nan x); [done|].
  destruct (0 <? x)%float; [done|].
  by destruct (x <? 0)%float.
Qed.

Lemma Math_min_zero x :
  JS.Math_min 0 x = if is_nan x then nan else if (0 <? x)%float then 0%float else x.
Proof.
  unfold JS.Math_min. change (is_nan 0) with false. simpl.
  destruct (is_nan x); [done|].
  destruct (0 <? x)%float; [done|].
  by destruct (x <? 0)%float.
Qed.

Lemma zero_div_pos f :
  (0 <? f)%float = true -> is_finite f = true -> (0 / f)%float = 0%float.
Proof.
  rewrite pos_spec, is_finite_spec. intros Hp Hf.
  apply Prim2SF_inj. rewrite div_spec.
  change (Prim2SF 0) with (S754_zero false).
  by destruct (Prim2SF f) as [s|s| |[] m e].
Qed.

Lemma nan_div f : (nan / f)%float = nan.
Proof.
  apply Prim2SF_inj. rewrite div_spec.
  change (Prim2SF nan) with S754_nan. reflexivity.
Qed.

Lemma mul_nan x : (x * nan)%float = nan.
Proof.
  apply Prim2SF_inj. rewrite mul_spec.
  change (Prim2SF nan) with S754_nan. by destruct (Prim2SF x).
Qed.

(** Flooring at zero commutes with dividing by a positive finite number. *)
Lemma Math_max_zero_div v f :
  (0 <? f)%float = true -> is_finite f = true ->
  JS.Math_max 0 (v / f) = (JS.Math_max 0 v / f)%float.
Proof.
  intros Hp Hf. rewrite !Math_max_zero.
  pose proof (zero_div_pos f Hp Hf) as H0.
  pose proof (div_spec v f) as Hq.
  rewrite pos_spec in Hp. rewrite is_finite_spec in Hf.
  rewrite !is_nan_spec, !pos_spec, Hq.
  destruct (Prim2SF f) as [sf|sf| |[] mf ef] eqn:Ef; try done.
  destruct (Prim2SF v) as [sv|[]| |sv mv ev] eqn:Ev;
    [by rewrite ?H0..|by rewrite nan_div|].
  pose proof (SFdiv_finite_sign sv mv ev false mf ef) as Hs.
  destruct (SF64div _ _) as [s|s| |s m e]; simpl in Hs; try done;
    subst s; destruct sv; simpl; try done.
  symmetry. apply Prim2SF_inj. by rewrite Hq.
Qed.



Lemma nonneg_div_pos v f :
  (0 <=? v)%float = true -> is_finite v = true -> (0 <? f)%float = true ->
  (0 <=? v / f)%float = true.
Proof.
  rewrite !nonneg_spec, is_finite_spec, pos_spec, div_spec.
  intros Hv Hfin Hp.
  destruct (Prim2SF f) as [sf|[]| |[] mf ef]; try done;
    destruct (Prim2SF v) as [sv|sv| |[] mv ev]; try done.
  pose proof (SFdiv_finite_sign false mv ev false mf ef) as Hs.
  destruct (SF64div _ _) as [s|s| |s m e]; simpl in Hs; try done; by subst s.
Qed.

(** The discharge read off a net storage value is never negative. *)
Lemma discharge_nonneg s :
  is_nan (-1 * JS.Math_min 0 s) = false ->
  (0 <=? -1 * JS.Math_min 0 s)%float = true.
Proof.
  rewrite Math_min_zero, is_nan_spec, nonneg_spec, mul_spec.
  change (Prim2SF (-1)) with (S754_finite true 4503599627370496 (-52)).
  destruct (is_nan s) eqn:Hn; [done|].
  destruct (0 <? s)%float eqn:Hp; [done|].
  rewrite is_nan_spec in Hn. rewrite pos_spec in Hp.
  destruct (Prim2SF s) as [sv|[]| |[] mv ev]; try done.
  pose proof (SFmul_finite_sign true 4503599627370496 (-52) true mv ev) as Hs.
  destruct (SF64mul _ _) as [s'|s'| |s' m e]; simpl in Hs; try done; by subst s'.
Qed.



(** *** The order on numbers *)

Lemma SFltb_trans x y z :
  SFltb x y = true -> SFltb y z = true -> SFltb x z = true.
Proof.
  unfold SFltb.
  destruct x as [sx|sx| |sx mx ex], y as [sy|sy| |sy my ey],
           z as [sz|sz| |sz mz ez]; simpl; try done;
    repeat match goal with s : bool |- _ => destruct s end; simpl; try done.
  all: change (Pos.compare_cont Eq mx my) with (Pos.compare mx my);
    change (Pos.compare_cont Eq my mz) with (Pos.compare my mz);
    change (Pos.compare_cont Eq mx mz) with (Pos.compare mx mz).
  all: destruct (Z.compare_spec ex ey), (Z.compare_spec ey ez),
         (Z.compare_spec ex ez); simpl; try done; try lia.
  all: destruct (Pos.compare_spec mx my), (Pos.compare_spec my mz),
         (Pos.compare_spec mx mz); simpl; try done; try lia.
Qed.

Lemma ltb_trans x y z :
  (x <? y)%float = true -> (y <? z)%float = true -> (x <? z)%float = true.
Proof. rewrite !ltb_spec. apply SFltb_trans. Qed.

Lemma ltb_irrefl x : (x <? x)%float = false.
Proof.
  rewrite ltb_spec. unfold SFltb.
  destruct (Prim2SF x) as [s|[]| |s m e]; try done.
  by rewrite SFcompare_refl_finite.
Qed.

Lemma ltb_nan_l x : (nan <? x)%float = false.
Proof. rewrite ltb_spec. change (Prim2SF nan) with S754_nan. done. Qed.

Lemma leb_refl x : (x <=? x)%float = negb (is_nan x).
Proof.
  rewrite is_nan_spec, leb_spec. unfold SFleb.
  destruct (Prim2SF x) as [s|[]| |s m e]; try done.
  by rewrite SFcompare_refl_finite.
Qed.

Lemma ltb_nan_r x y : is_nan y = true -> (x <? y)%float = false.
Proof.
  rewrite is_nan_spec, ltb_spec. unfold SFltb.
  destruct (Prim2SF y); try done. by destruct (Prim2SF x).
Qed.

End FloatFacts.
(** ** Loops that write one key per step *)

Section Loops.

Context {A V : Type}.

Lemma forEach_writes (callback : gmap string V -> A -> completion (gmap string V))
    key val :
  writes callback key val ->
  forall l s s',
    forEach callback l s = Normal s' ->
    s' = foldl (fun s a => <[key a := val a]> s) s l.
Proof.
  intros Hw l. induction l as [|a l IH]; intros s s' H; simpl in *.
  - by injection H.
  - destruct (callback s a) as [s1|] eqn:E; [|done].
    apply Hw in E. subst s1. by apply IH.
Qed.

(** A callback that never throws makes the loop return. *)
Lemma forEach_total (callback : gmap string V -> A -> completion (gmap string V)) :
  (forall s a, exists s', callback s a = Normal s') ->
  forall l s, exists s', forEach callback l s = Normal s'.
Proof.
  intros Ht l. induction l as [|a l IH]; intros s; simpl.
  - by eexists.
  - destruct (Ht s a) as [s1 ->]. apply IH.
Qed.

End Loops.

Lemma lookup_foldl_insert_elem {V : Type} (val : string -> V) (l : list string)
    (s : gmap string V) (k : string) :
  foldl (fun s a => <[a := val a]> s) s l !! k
  = if bool_decide (k ∈ l) then Some (val k) else s !! k.
Proof.
  revert s. induction l as [|a l IH]; intros s.
  - rewrite bool_decide_eq_false_2; [done|]. apply not_elem_of_nil.
  - change (foldl _ s (a :: l)) with
      (foldl (fun s a => <[a := val a]> s) (<[a := val a]> s) l).
    rewrite IH. destruct (decide (k ∈ l)) as [Hin|Hnin].
    + rewrite (bool_decide_eq_true_2 (k ∈ l)) by done.
      rewrite (bool_decide_eq_true_2 (k ∈ a :: l)); [done|by right].
    + rewrite (bool_decide_eq_false_2 (k ∈ l)) by done.
      destruct (decide (k = a)) as [->|Hne].
      * rewrite lookup_insert_eq, bool_decide_eq_true_2; [done|by left].
      * rewrite lookup_insert_ne by done.
        rewrite bool_decide_eq_false_2; [done|].
        rewrite elem_of_cons. tauto.
Qed.

Lemma lookup_foldl_insert_entries {U V : Type} (val : string * U -> V)
    (l : list (string * U)) (s : gmap string V) (k : string) :
  NoDup l.*1 ->
  foldl (fun s a => <[a.1 := val a]> s) s l !! k
  = match (list_to_map l : gmap string U) !! k with
    | Some v => Some (val (k, v))
    | None => s !! k
    end.
Proof.
  revert s. induction l as [|[k0 v0] l IH]; intros s Hnd; simpl.
  - by rewrite lookup_empty.
  - apply NoDup_cons in Hnd as [Hk0 Hnd]. rewrite IH by done.
    destruct (decide (k = k0)) as [->|Hne].
    + rewrite (not_elem_of_list_to_map_1 l k0) by done.
      by rewrite !lookup_insert_eq.
    + by rewrite !lookup_insert_ne.
Qed.

Lemma mapM_Normal {A B : Type} (f : A -> completion B) (l : list A) (k : list B) :
  mapM f l = Normal k -> Forall2 (fun a b => f a = Normal b) l k.
Proof.
  revert k. induction l as [|a l IH]; intros k H; simpl in H.
  - injection H as <-. constructor.
  - destruct (f a) as [b|] eqn:E; [|done]. simpl in H.
    destruct (mapM f l) as [k'|]; [|done]. simpl in H.
    injection H as <-. constructor; auto.
Qed.

Lemma mapM_total {A B : Type} (f : A -> completion B) (l : list A) :
  (forall a, exists b, f a = Normal b) -> exists k, mapM f l = Normal k.
Proof.
  intros Ht. induction l as [|a l [k IH]]; simpl.
  - by eexists.
  - destruct (Ht a) as [b ->]. rewrite IH. by eexists.
Qed.
(** ** What one datapoint holds *)

Section TransformFacts.

Variable modeOrder : list string.
Variable displayByEmissions : bool.
Variable electricityMixMode : string.
Variable valueFactor : float.

Lemma get_prop_Normal table key i :
  get_prop table key = Normal i -> i = JS.get_or_empty table key.
Proof. destruct table; simpl; [|done]. by intros [= <-]. Qed.

Lemma addProduction_writes d :
  writes (addProduction displayByEmissions valueFactor d) id
         (fun k => Number (categoryValue displayByEmissions valueFactor d k)).
Proof.
  intros obj k obj'. unfold addProduction, categoryValue, rawValue, isStorage, storageKey.
  simpl.
  set (value := if negb _ then _ else _).
  set (x := (JS.ToNumber value / valueFactor)%float).
  destruct (JS.Number_isFinite value && displayByEmissions); simpl;
    [|by intros [= <-]].
  destruct (negb _ && (0 <=? x)%float); simpl.
  - destruct (get_prop _ _) as [i|] eqn:E; simpl; [|done].
    apply get_prop_Normal in E as ->. intros [= <-]. by rewrite insert_insert_eq.
  - destruct (get_prop _ _) as [i|] eqn:E; simpl; [|done].
    apply get_prop_Normal in E as ->. intros [= <-]. by rewrite insert_insert_eq.
Qed.

Lemma addExchange_writes d :
  writes (addExchange displayByEmissions valueFactor d) fst
         (fun entry => Number (exchangeValue displayByEmissions valueFactor d entry)).
Proof.
  intros obj [key value] obj'. unfold addExchange, exchangeValue. simpl.
  set (x := JS.Math_max 0 _).
  destruct (JS.Number_isFinite value && displayByEmissions); simpl;
    [|by intros [= <-]].
  destruct (get_prop _ _) as [i|] eqn:E; simpl; [|done].
  apply get_prop_Normal in E as ->. intros [= <-]. by rewrite insert_insert_eq.
Qed.

(** Every property of the datapoint of [d], key by key: the back-reference,
    then the exchange entries, then the categories, then the timestamp. *)
Lemma layerRecord_lookup d obj key :
  layerRecord modeOrder displayByEmissions electricityMixMode valueFactor d
    = Normal obj ->
  obj !! key =
    if bool_decide (key = "meta") then Some (Meta d)
    else match shownExchange electricityMixMode d !! key with
         | Some value => Some (Number (exchangeValue displayByEmissions valueFactor d (key, value)))
         | None =>
             if bool_decide (key ∈ modeOrder)
             then Some (Number (categoryValue displayByEmissions valueFactor d key))
             else if bool_decide (key = "datetime")
                  then Some (Datetime (stateDatetime d))
                  else None
         end.
Proof.
  unfold layerRecord, shownExchange.
  destruct (forEach _ modeOrder _) as [obj1|] eqn:E1; simpl; [|done].
  apply (forEach_writes _ _ _ (addProduction_writes d)) in E1.
  assert (H1 : obj1 !! key =
               if bool_decide (key ∈ modeOrder)
               then Some (Number (categoryValue displayByEmissions valueFactor d key))
               else if bool_decide (key = "datetime")
                    then Some (Datetime (stateDatetime d)) else None).
  { subst obj1.
    rewrite (lookup_foldl_insert_elem
               (fun k => Number (categoryValue displayByEmissions valueFactor d k))).
    case_bool_decide; [done|].
    case_bool_decide as Hk; [subst key; by rewrite lookup_singleton_eq|].
    by rewrite lookup_singleton_ne by congruence. }
  destruct (bool_decide (electricityMixMode = "consumption")); simpl.
  - destruct (forEachOwn _ _ _) as [obj2|] eqn:E2; simpl; [|done].
    intros [= <-]. unfold forEachOwn in E2.
    apply (forEach_writes _ _ _ (addExchange_writes d)) in E2.
    destruct (decide (key = "meta")) as [->|Hm];
      [by rewrite lookup_insert_eq|].
    rewrite (bool_decide_eq_false_2 (key = "meta")) by done.
    rewrite lookup_insert_ne by done. subst obj2.
    rewrite (lookup_foldl_insert_entries
               (fun entry => Number (exchangeValue displayByEmissions valueFactor d entry)))
      by apply NoDup_fst_map_to_list.
    rewrite list_to_map_to_list.
    by destruct (default ∅ (exchange d) !! key).
  - intros [= <-].
    destruct (decide (key = "meta")) as [->|Hm];
      [by rewrite lookup_insert_eq|].
    rewrite (bool_decide_eq_false_2 (key = "meta")) by done.
    rewrite lookup_insert_ne by done. by rewrite lookup_empty.
Qed.

End TransformFacts.
(** ** The transform against the specification's wording *)

Lemma is_finite_not_nan x : is_finite x = true -> is_nan x = false.
Proof.
  unfold is_finite. destruct (is_nan x); [done|reflexivity].
Qed.

Lemma categoryValue_spec em f d k :
  (0 <? f)%float = true ->
  categoryValue em f d k = spec_categoryField em f d k.
Proof.
  intros Hf. unfold categoryValue, spec_categoryField, spec_intensity,
    spec_intensityTable, spec_intensityKey, rawValue.
  destruct (isStorage k) eqn:Hs; simpl.
  - set (v := (-1 * JS.Math_min 0 _)%float).
    destruct (is_finite v) eqn:Hfin; destruct em; simpl; try done.
    rewrite (FloatFacts.nonneg_div_pos v f); try done.
    by apply FloatFacts.discharge_nonneg, is_finite_not_nan.
  - by destruct (JS.Number_isFinite _), em.
Qed.

Lemma exchangeValue_spec em f d key raw :
  (0 <? f)%float = true -> is_finite f = true ->
  exchangeValue em f d (key, raw) = spec_exchangeField em f d key raw.
Proof.
  intros Hf Hfin. unfold exchangeValue, spec_exchangeField. simpl.
  rewrite (FloatFacts.Math_max_zero_div _ f Hf Hfin).
  by destruct (JS.Number_isFinite raw), em.
Qed.

(** ** The result of [prepareGraphData] on a non-empty batch *)

Section Prepared.

Variable modeOrder : list string.
Variable modeColor : gmap string string.
Variable scalePower : JS.value -> Format.t.
Variable getCo2Scale : bool -> JS.value -> string.

Lemma prepareGraphData_Normal hd cb em mode ek out :
  hd <> [] ->
  prepareGraphData modeOrder modeColor scalePower getCo2Scale
    (Some hd) cb em mode ek = Normal out ->
  exists rows,
    data out = Some rows
    /\ layerKeys out = Some (modeOrder ++ ek)
    /\ is_Some (layerFill out)
    /\ valueAxisLabel out
       = Some (Info.valueAxisLabel (getValuesInfo scalePower hd em))
    /\ Forall2
         (fun d obj =>
            layerRecord modeOrder em mode
              (Info.valueFactor (getValuesInfo scalePower hd em)) d = Normal obj)
         hd rows.
Proof.
  intros Hne. unfold prepareGraphData.
  destruct hd as [|d0 hd0]; [done|].
  destruct (mapM _ (d0 :: hd0)) as [rows|] eqn:E; [|done].
  intros [= <-]. exists rows. simpl.
  repeat split; try done. by apply mapM_Normal.
Qed.

(** Without emissions display no intensity table is read, so nothing throws. *)
Lemma layerRecord_power_total mode f d :
  exists obj, layerRecord modeOrder false mode f d = Normal obj.
Proof.
  unfold layerRecord.
  destruct (forEach_total (addProduction false f d)) with (l := modeOrder)
    (s := ({[ "datetime" := Datetime (stateDatetime d) ]} : LayerRecord))
    as [obj1 ->].
  { intros s a. unfold addProduction. rewrite andb_false_r. by eexists. }
  simpl. destruct (bool_decide _); simpl; [|by eexists].
  destruct (forEach_total (addExchange false f d))
    with (l := map_to_list (default ∅ (exchange d))) (s := obj1) as [obj2 E2].
  { intros s [key value]. unfold addExchange. rewrite andb_false_r. by eexists. }
  unfold forEachOwn. rewrite E2. by eexists.
Qed.



Lemma prepareGraphData_power_total hd cb mode ek :
  exists out,
    prepareGraphData modeOrder modeColor scalePower getCo2Scale
      hd cb false mode ek = Normal out.
Proof.
  unfold prepareGraphData. destruct hd as [[|d0 hd0]|]; try by eexists.
  destruct (mapM_total
              (layerRecord modeOrder false mode
                 (Info.valueFactor (getValuesInfo scalePower (d0 :: hd0) false)))
              (d0 :: hd0)) as [rows ->].
  { intros d. apply layerRecord_power_total. }
  by eexists.
Qed.

End Prepared.

(** ** The greatest comparable value *)

Section D3Max.

Context {A : Type}.
Variable q : A -> float.

Lemma d3Max_step seen max a :
  isMaxOf q seen max ->
  isMaxOf q (seen ++ [a])
    (if JS.neq_null (JS.Num (q a))
        && (JS.lt max (JS.Num (q a))
            || (JS.is_undefined max && JS.ge (JS.Num (q a)) (JS.Num (q a))))
     then JS.Num (q a) else max).
Proof.
  unfold JS.lt, JS.ge. simpl. destruct max as [| |m]; simpl; [|done|].
  - intros Hseen. rewrite FloatFacts.ltb_nan_l, FloatFacts.leb_refl. simpl.
    destruct (is_nan (q a)) eqn:Hn; simpl.
    + intros a' [Ha'|Ha']%elem_of_app; [by apply Hseen|].
      apply list_elem_of_singleton in Ha'. by subst a'.
    + split; [exists a; split; [|done]; apply elem_of_app; right; by left|].
      split; [done|].
      intros a' [Ha'|Ha']%elem_of_app.
      * by apply FloatFacts.ltb_nan_r, Hseen.
      * apply list_elem_of_singleton in Ha'. subst a'. apply FloatFacts.ltb_irrefl.
  - intros ((a0 & Ha0 & Hq0) & Hm & Hseen). rewrite orb_false_r.
    destruct (m <? q a)%float eqn:Hlt.
    + split; [exists a; split; [|done]; apply elem_of_app; right; by left|].
      split.
      { destruct (is_nan (q a)) eqn:Hn; [|done].
        by rewrite (FloatFacts.ltb_nan_r m (q a) Hn) in Hlt. }
      intros a' [Ha'|Ha']%elem_of_app.
      * destruct (q a <? q a')%float eqn:Hlt'; [|done].
        by rewrite <- (Hseen a' Ha'), (FloatFacts.ltb_trans m (q a) (q a')).
      * apply list_elem_of_singleton in Ha'. subst a'. apply FloatFacts.ltb_irrefl.
    + split; [exists a0; split; [|done]; apply elem_of_app; by left|].
      split; [done|].
      intros a' [Ha'|Ha']%elem_of_app; [by apply Hseen|].
      apply list_elem_of_singleton in Ha'. by subst a'.
Qed.

Lemma d3Max_isMaxOf (values : list A) :
  isMaxOf q values (d3Max values (fun a => JS.Num (q a))).
Proof.
  unfold d3Max.
  assert (H : forall seen max,
             isMaxOf q seen max ->
             isMaxOf q (seen ++ values)
               (foldl (fun max d =>
                         let value := JS.Num (q d) in
                         if JS.neq_null value
                            && (JS.lt max value
                                || (JS.is_undefined max && JS.ge value value))
                         then value else max) max values)).
  { induction values as [|a l IH]; intros seen max Hinv.
    - by rewrite app_nil_r.
    - rewrite (assoc_L (++) seen [a] l : seen ++ a :: l = (seen ++ [a]) ++ l).
      apply IH, d3Max_step, Hinv. }
  apply (H [] JS.Undefined). intros a Ha. by apply elem_of_nil in Ha.
Qed.

End D3Max.

Lemma recordTotal_Num em d :
  recordTotal em d = JS.Num (JS.ToNumber (recordTotal em d)).
Proof. by destruct em. Qed.

Lemma maxTotalValue_isMaxOf hd em :
  isMaxOf (fun d => JS.ToNumber (recordTotal em d)) hd (maxTotalValue hd em).
Proof.
  unfold maxTotalValue.
  replace (d3Max hd (recordTotal em))
    with (d3Max hd (fun d => JS.Num (JS.ToNumber (recordTotal em d)))).
  - apply d3Max_isMaxOf.
  - by destruct em.
Qed.

(** ** The properties of the specification *)

Section Properties.

Variable modeOrder : list string.
Variable modeColor : gmap string string.
Variable scalePower : JS.value -> Format.t.
Variable getCo2Scale : bool -> JS.value -> string.

Local Abbreviation prepareGraphData :=
  (prepareGraphData modeOrder modeColor scalePower getCo2Scale).
Local Abbreviation scaleFactor hd em :=
  (Info.valueFactor (getValuesInfo scalePower hd em)).

(** C1.  For a non-empty batch and a positive finite scale factor, every
    numeric property of every datapoint is the field the specification
    describes: for an exchange partner the raw exchange floored at zero, for a
    category the discharge or the production, divided by the scale factor and,
    under emissions display with a finite raw value, multiplied by the
    applicable intensity divided by 1000 and by 60.  Every category and every
    shown exchange partner has such a property. *)
Theorem layer_fields_follow_spec hd cb em mode ek out :
  hd <> [] ->
  (0 <? scaleFactor hd em)%float = true ->
  is_finite (scaleFactor hd em) = true ->
  prepareGraphData (Some hd) cb em mode ek = Normal out ->
  exists rows,
    data out = Some rows /\
    Forall2
      (fun d obj =>
         (forall key x,
             obj !! key = Some (Number x) ->
             (exists raw,
                 mode = "consumption"
                 /\ default ∅ (exchange d) !! key = Some raw
                 /\ x = spec_exchangeField em (scaleFactor hd em) d key raw)
             \/ (key ∈ modeOrder
                 /\ x = spec_categoryField em (scaleFactor hd em) d key))
         /\ (forall key,
                key <> "meta" ->
                key ∈ modeOrder
                \/ (mode = "consumption"
                    /\ is_Some (default ∅ (exchange d) !! key)) ->
                exists x, obj !! key = Some (Number x)))
      hd rows.
Proof.
  intros Hne Hpos Hfin Hout.
  destruct (prepareGraphData_Normal _ _ _ _ _ _ _ _ _ _ Hne Hout)
    as (rows & Hdata & _ & _ & _ & Hrows).
  exists rows. split; [done|].
  eapply Forall2_impl; [exact Hrows|].
  intros d obj Hobj. cbv beta in Hobj.
  pose proof (layerRecord_lookup modeOrder em mode (scaleFactor hd em) d obj) as Hlook.
  specialize (fun key => Hlook key Hobj).
  split.
  - intros key x Hx. rewrite Hlook in Hx.
    case_bool_decide as Hmeta; [done|].
    unfold shownExchange in Hx.
    destruct (decide (mode = "consumption")) as [Hmode|Hmode].
    + rewrite bool_decide_eq_true_2 in Hx by done.
      destruct (default ∅ (exchange d) !! key) as [raw|] eqn:Eraw.
      * left. exists raw. injection Hx as <-.
        by rewrite exchangeValue_spec.
      * right. case_bool_decide as Hin; [|by case_bool_decide].
        injection Hx as <-. by rewrite categoryValue_spec.
    + rewrite bool_decide_eq_false_2 in Hx by done.
      rewrite lookup_empty in Hx.
      right. case_bool_decide as Hin; [|by case_bool_decide].
      injection Hx as <-. by rewrite categoryValue_spec.
  - intros key Hmeta Hkey. rewrite Hlook.
    rewrite bool_decide_eq_false_2 by done.
    destruct (shownExchange mode d !! key) as [raw|] eqn:Eraw; [by eexists|].
    destruct Hkey as [Hin|[Hmode [raw Hraw]]].
    + rewrite bool_decide_eq_true_2 by done. by eexists.
    + unfold shownExchange in Eraw.
      rewrite bool_decide_eq_true_2 in Eraw by done. congruence.
Qed.

(** C5.  An absent batch and an empty batch both give the empty object: no
    data array, no layer keys, no fill function and no axis label; nothing is
    thrown. *)
Theorem empty_batch_gives_empty_object cb em mode ek :
  prepareGraphData None cb em mode ek = Normal emptyObject
  /\ prepareGraphData (Some []) cb em mode ek = Normal emptyObject
  /\ data emptyObject = None
  /\ layerKeys emptyObject = None
  /\ layerFill emptyObject = None
  /\ valueAxisLabel emptyObject = None.
Proof. repeat split. Qed.


(** C8.  For a non-empty batch the layer keys are the mode order followed by
    the exchange keys: as many keys as both lists together, the category keys
    at their own positions and every exchange key after all of them. *)
Theorem layer_keys_are_categories_then_exchanges hd cb em mode ek out :
  hd <> [] ->
  prepareGraphData (Some hd) cb em mode ek = Normal out ->
  exists keys,
    layerKeys out = Some keys
    /\ keys = modeOrder ++ ek
    /\ length keys = length modeOrder + length ek
    /\ (forall i k, modeOrder !! i = Some k -> keys !! i = Some k)
    /\ (forall j k, ek !! j = Some k -> keys !! (length modeOrder + j) = Some k)
    /\ (forall i, i < length modeOrder ->
                  exists k, keys !! i = Some k /\ modeOrder !! i = Some k).
Proof.
  intros Hne Hout.
  destruct (prepareGraphData_Normal _ _ _ _ _ _ _ _ _ _ Hne Hout)
    as (rows & _ & Hkeys & _).
  exists (modeOrder ++ ek). repeat split; try done.
  - apply length_app.
  - intros i k Hi. by apply lookup_app_l_Some.
  - intros j k Hj. by rewrite lookup_app_r, Nat.add_comm, Nat.add_sub by lia.
  - intros i Hi. destruct (lookup_lt_is_Some_2 modeOrder i Hi) as [k Hk].
    exists k. split; [by apply lookup_app_l_Some|done].
Qed.

(** C10.  When the production mapping of a record is absent or has no entry
    for a generation category, the datapoint still has the category's
    property, and it holds NaN. *)
Theorem missing_production_gives_nan hd cb em mode ek out :
  hd <> [] ->
  prepareGraphData (Some hd) cb em mode ek = Normal out ->
  exists rows,
    data out = Some rows /\
    Forall2
      (fun d obj =>
         forall k,
           k ∈ modeOrder -> isStorage k = false ->
           default ∅ (production d) !! k = None ->
           k <> "meta" ->
           (mode = "consumption" -> default ∅ (exchange d) !! k = None) ->
           exists x,
             obj !! k = Some (Number x)
             /\ is_nan x = true
             /\ JS.Number_isFinite (JS.Num x) = false)
      hd rows.
Proof.
  intros Hne Hout.
  destruct (prepareGraphData_Normal _ _ _ _ _ _ _ _ _ _ Hne Hout)
    as (rows & Hdata & _ & _ & _ & Hrows).
  exists rows. split; [done|].
  eapply Forall2_impl; [exact Hrows|].
  intros d obj Hobj k Hin Hgen Hprod Hmeta Hex. cbv beta in Hobj.
  exists nan. split; [|done].
  rewrite (layerRecord_lookup modeOrder em mode (scaleFactor hd em) d obj k Hobj).
  rewrite bool_decide_eq_false_2 by done.
  assert (shownExchange mode d !! k = None) as ->.
  { unfold shownExchange. case_bool_decide; [by apply Hex|done]. }
  rewrite bool_decide_eq_true_2 by done.
  unfold categoryValue, rawValue, JS.get_or_empty.
  rewrite Hgen, Hprod. simpl. by rewrite FloatFacts.nan_div.
Qed.


(** C2, as the source has it.  With gas at 100, US at 30, a scale factor of 1,
    mode "consumption" and no emissions display, the datapoint has gas = 100
    and US = 30; a net battery storage of -40 shows as 40 and one of +40 as
    (negative) zero: the negative part of the net storage is the discharge. *)
Theorem battery_example hd cb ek i d (positive : bool) :
  hd !! i = Some d ->
  scaleFactor hd false = 1%float ->
  "gas" ∈ modeOrder ->
  "battery storage" ∈ modeOrder ->
  default ∅ (production d) !! "gas" = Some (JS.Num 100) ->
  default ∅ (storage d) !! "battery"
    = Some (JS.Num (if positive then 40 else -40)) ->
  default ∅ (exchange d) = {[ "US" := JS.Num 30 ]} ->
  exists out rows obj,
    prepareGraphData (Some hd) cb false "consumption" ek = Normal out
    /\ data out = Some rows
    /\ rows !! i = Some obj
    /\ obj !! "gas" = Some (Number 100)
    /\ obj !! "US" = Some (Number 30)
    /\ obj !! "battery storage" = Some (Number (if positive then -0 else 40)).
Proof.
  intros Hi Hf Hgas Hbat Hprod Hsto Hex.
  assert (Hne : hd <> []) by (intros ->; by rewrite lookup_nil in Hi).
  destruct (prepareGraphData_power_total modeOrder modeColor scalePower
              getCo2Scale (Some hd) cb "consumption" ek) as [out Hout].
  destruct (prepareGraphData_Normal _ _ _ _ _ _ _ _ _ _ Hne Hout)
    as (rows & Hdata & _ & _ & _ & Hrows).
  destruct (Forall2_lookup_l _ _ _ _ _ Hrows Hi) as (obj & Hobj & Hrec).
  exists out, rows, obj. repeat split; try done.
  - rewrite (layerRecord_lookup _ _ _ _ d obj "gas" Hrec).
    rewrite bool_decide_eq_false_2 by done.
    unfold shownExchange. rewrite bool_decide_eq_true_2, Hex by done.
    rewrite lookup_singleton_ne, bool_decide_eq_true_2 by done.
    unfold categoryValue, rawValue, JS.get_or_empty.
    change (isStorage "gas") with false.
    by rewrite Hprod, Hf.
  - rewrite (layerRecord_lookup _ _ _ _ d obj "US" Hrec).
    rewrite bool_decide_eq_false_2 by done.
    unfold shownExchange. rewrite bool_decide_eq_true_2, Hex by done.
    rewrite lookup_singleton_eq. unfold exchangeValue.
    change ((("US", JS.Num 30) : string * JS.value).2) with (JS.Num 30).
    by rewrite Hf.
  - rewrite (layerRecord_lookup _ _ _ _ d obj "battery storage" Hrec).
    rewrite bool_decide_eq_false_2 by done.
    unfold shownExchange. rewrite bool_decide_eq_true_2, Hex by done.
    rewrite lookup_singleton_ne, bool_decide_eq_true_2 by done.
    unfold categoryValue, rawValue, JS.get_or_empty.
    change (isStorage "battery storage") with true.
    change (storageKey "battery storage") with "battery".
    rewrite Hsto, Hf. by destruct positive.
Qed.

(** C4, as the source has it.  The per-record total is the sum of the total
    production, import and discharge in power display, and the sum of the
    total CO2 of production, import and discharge divided by 1,000,000 and by
    60 in emissions display; the peak is the greatest of these totals over the
    batch: a number, not NaN, that is the total of some record and that no
    total exceeds, totals that are NaN being passed over (there is no peak
    when every total is NaN).  In both displays the peak goes to the power
    formatter, whose divisor is the scale factor; the axis label is the
    formatter's unit in power display and "tCO2eq / min" in emissions
    display. *)
Theorem value_scale_selector hd em :
  let peak := maxTotalValue hd em in
  getValuesInfo scalePower hd em
  = {| Info.valueAxisLabel :=
         if em then "tCO2eq / min" else Format.unit (scalePower peak);
       Info.valueFactor := Format.formattingFactor (scalePower peak) |}
  /\ (forall d,
         recordTotal em d
         = if em
           then JS.Num ((JS.ToNumber (totalCo2Production d)
                         + JS.ToNumber (totalCo2Import d)
                         + JS.ToNumber (totalCo2Discharge d)) / 1000000 / 60)
           else JS.Num (JS.ToNumber (totalProduction d)
                        + JS.ToNumber (totalImport d)
                        + JS.ToNumber (totalDischarge d)))
  /\ match peak with
     | JS.Num m =>
         is_nan m = false
         /\ (exists d, d ∈ hd /\ recordTotal em d = JS.Num m)
         /\ forall d, d ∈ hd -> JS.lt peak (recordTotal em d) = false
     | JS.Undefined =>
         forall d, d ∈ hd -> is_nan (JS.ToNumber (recordTotal em d)) = true
     | JS.Null => False
     end.
Proof.
  split; [done|]. split; [intros d; by destruct em|].
  pose proof (maxTotalValue_isMaxOf hd em) as H.
  destruct (maxTotalValue hd em) as [| |m]; simpl in *; [done..|].
  destruct H as ((d & Hd & Hq) & Hnan & Hmax). split; [done|]. split.
  - exists d. split; [done|]. by rewrite recordTotal_Num, Hq.
  - intros d' Hd'. by apply Hmax.
Qed.


End Properties.

Section TooltipProperties.

Variable Position : Type.
Variable getTooltipPosition : bool -> Position -> Position.

(** C9, as the source has it.  The tooltip is hidden at the first render; a
    marker update shows it with the layer key, the anchored position and the
    datapoint's source record; a marker hide hides it; the hover and
    pointer-out callbacks of the background and of the layers leave it as it
    is. *)
Theorem tooltip_follows_marker (isMobile : bool) (stored : option nat)
    (s : ComponentState Position) (e : event Position) :
  tooltip (@initialState Position stored) = None
  /\ tooltip (handle getTooltipPosition isMobile s e)
     = match e with
       | MarkerUpdate position datapoint layerKey =>
           Some {| mode := layerKey;
                   position := getTooltipPosition isMobile position;
                   zoneData := datapoint !! "meta" |}
       | MarkerHide => None
       | _ => tooltip s
       end.
Proof. split; [done|]. by destruct e. Qed.

End TooltipProperties.

(** ** The properties on the sample records *)

(** The fields of the sample observation under emissions display, in mode
    "consumption". *)
Lemma layer_fields_follow_spec_witness :
  exists rows,
    data (Sample.out (Some [Sample.record (-40)]) true "consumption") = Some rows /\
    Forall2
      (fun d obj =>
         (forall key x,
             obj !! key = Some (Number x) ->
             (exists raw,
                 "consumption" = "consumption"
                 /\ default ∅ (exchange d) !! key = Some raw
                 /\ x = spec_exchangeField true
                          (Info.valueFactor
                             (getValuesInfo Sample.scalePower [Sample.record (-40)] true))
                          d key raw)
             \/ (key ∈ Sample.modeOrder
                 /\ x = spec_categoryField true
                          (Info.valueFactor
                             (getValuesInfo Sample.scalePower [Sample.record (-40)] true))
                          d key))
         /\ (forall key,
                key <> "meta" ->
                key ∈ Sample.modeOrder
                \/ ("consumption" = "consumption"
                    /\ is_Some (default ∅ (exchange d) !! key)) ->
                exists x, obj !! key = Some (Number x)))
      [Sample.record (-40)] rows.
Proof.
  apply (layer_fields_follow_spec Sample.modeOrder Sample.modeColor
           Sample.scalePower Sample.getCo2Scale
           [Sample.record (-40)] false true "consumption" ["US"]).
  - discriminate.
  - vm_compute. reflexivity.
  - vm_compute. reflexivity.
  - vm_compute. reflexivity.
Defined.


(** The layer keys of the sample batch with the exchange key US. *)
Lemma layer_keys_witness :
  exists keys,
    layerKeys (Sample.out (Some [Sample.record (-40)]) false "consumption") = Some keys
    /\ keys = Sample.modeOrder ++ ["US"]
    /\ length keys = length Sample.modeOrder + length ["US"]
    /\ (forall i k, Sample.modeOrder !! i = Some k -> keys !! i = Some k)
    /\ (forall j k, ["US"] !! j = Some k ->
                    keys !! (length Sample.modeOrder + j) = Some k)
    /\ (forall i, i < length Sample.modeOrder ->
                  exists k, keys !! i = Some k /\ Sample.modeOrder !! i = Some k).
Proof.
  apply (layer_keys_are_categories_then_exchanges Sample.modeOrder
           Sample.modeColor Sample.scalePower Sample.getCo2Scale
           [Sample.record (-40)] false false "consumption" ["US"]).
  - discriminate.
  - vm_compute. reflexivity.
Defined.

(** The observation without a production mapping. *)
Lemma missing_production_gives_nan_witness :
  exists rows,
    data (Sample.out (Some [Sample.recordNoProduction]) true "consumption") = Some rows /\
    Forall2
      (fun d obj =>
         forall k,
           k ∈ Sample.modeOrder -> isStorage k = false ->
           default ∅ (production d) !! k = None ->
           k <> "meta" ->
           ("consumption" = "consumption" -> default ∅ (exchange d) !! k = None) ->
           exists x,
             obj !! k = Some (Number x)
             /\ is_nan x = true
             /\ JS.Number_isFinite (JS.Num x) = false)
      [Sample.recordNoProduction] rows.
Proof.
  apply (missing_production_gives_nan Sample.modeOrder Sample.modeColor
           Sample.scalePower Sample.getCo2Scale
           [Sample.recordNoProduction] false true "consumption" ["US"]).
  - discriminate.
  - vm_compute. reflexivity.
Defined.

(** The sample observation with a net battery storage of -40. *)
Lemma battery_example_witness :
  exists out rows obj,
    Sample.prepare (Some [Sample.record (-40)]) false "consumption" = Normal out
    /\ data out = Some rows
    /\ rows !! 0 = Some obj
    /\ obj !! "gas" = Some (Number 100)
    /\ obj !! "US" = Some (Number 30)
    /\ obj !! "battery storage" = Some (Number 40).
Proof.
  apply (battery_example Sample.modeOrder Sample.modeColor Sample.scalePower
           Sample.getCo2Scale [Sample.record (-40)] false ["US"] 0
           (Sample.record (-40)) false).
  - reflexivity.
  - vm_compute. reflexivity.
  - apply list_elem_of_In. simpl. tauto.
  - apply list_elem_of_In. simpl. tauto.
  - vm_compute. reflexivity.
  - vm_compute. reflexivity.
  - reflexivity.
Defined.


(** ** Where the specification and the source part ways *)

(** C2 as written fails: a net battery storage of -40 shows as 40, not as 0,
    and one of +40 shows as zero, not as 40. *)
Lemma battery_example_counterexample :
  Info.valueFactor (getValuesInfo Sample.scalePower [Sample.record (-40)] false)
  = 1%float
  /\ fieldAt (Sample.prepare (Some [Sample.record (-40)]) false "consumption")
       0 "battery storage" = Some (Number 40)
  /\ isNumber (fieldAt (Sample.prepare (Some [Sample.record (-40)]) false "consumption")
                 0 "battery storage") 0 = false
  /\ fieldAt (Sample.prepare (Some [Sample.record 40]) false "consumption")
       0 "battery storage" = Some (Number (-0))
  /\ isNumber (fieldAt (Sample.prepare (Some [Sample.record 40]) false "consumption")
                 0 "battery storage") 40 = false.
Proof. repeat split; vm_compute; reflexivity. Qed.

(** C3 as written fails: under emissions display, gas at 100 and US at 30
    with no intensity entry do not stay at their power values (100 and 30 at
    a scale factor of 1); both properties are NaN. *)
Lemma conversion_skipped_counterexample :
  Info.valueFactor
    (getValuesInfo Sample.scalePower [Sample.recordUnknownIntensity] true)
  = 1%float
  /\ fieldAt (Sample.prepare (Some [Sample.recordUnknownIntensity]) true "consumption")
       0 "gas" = Some (Number nan)
  /\ isNumber (fieldAt (Sample.prepare (Some [Sample.recordUnknownIntensity]) true
                          "consumption") 0 "gas") (100 / 1) = false
  /\ fieldAt (Sample.prepare (Some [Sample.recordUnknownIntensity]) true "consumption")
       0 "US" = Some (Number nan)
  /\ isNumber (fieldAt (Sample.prepare (Some [Sample.recordUnknownIntensity]) true
                          "consumption") 0 "US") (30 / 1) = false.
Proof. repeat split; vm_compute; reflexivity. Qed.

(** A record delivered without its intensity tables makes the call throw
    under emissions display. *)
Example absent_tables_throw :
  Sample.prepare (Some [Sample.recordNoTables]) true "consumption" = TypeError.
Proof. vm_compute. reflexivity. Qed.

(** C4 as written fails: under emissions display the peak is not the sum of
    total production, import and discharge divided by 1,000,000 and by 60;
    it comes from the CO2 totals, and the formatter sees it. *)
Lemma value_scale_selector_counterexample :
  maxTotalValue [Sample.record (-40)] true = JS.Num 74
  /\ spec_peak [Sample.record (-40)] true = JS.Num (170 / 1000000 / 60)
  /\ JS.lt (spec_peak [Sample.record (-40)] true)
           (maxTotalValue [Sample.record (-40)] true) = true
  /\ getValuesInfo Sample.scalePower [Sample.record (-40)] true
     = {| Info.valueAxisLabel := "tCO2eq / min";
          Info.valueFactor :=
            Format.formattingFactor (Sample.scalePower (JS.Num 74)) |}
  /\ Format.formattingFactor (Sample.scalePower (JS.Num 74)) = 1%float
  /\ (Format.formattingFactor
        (Sample.scalePower (spec_peak [Sample.record (-40)] true)) =? 1)%float
     = false.
Proof. repeat split; vm_compute; reflexivity. Qed.


(** C9 as written fails: a layer hover does not show the tooltip, and a
    pointer-out of a layer or of the background does not hide it. *)
Lemma tooltip_counterexample :
  tooltip (run Sample.getTooltipPosition false None [LayerMouseMove 3 1]) = None
  /\ tooltip (run Sample.getTooltipPosition false None
                [MarkerUpdate (10, 20)%Z ∅ "gas"; LayerMouseOut])
     = Some {| mode := "gas"; position := (10, 20)%Z; zoneData := None |}
  /\ tooltip (run Sample.getTooltipPosition false None
                [MarkerUpdate (10, 20)%Z ∅ "gas"; BackgroundMouseOut 3])
     = Some {| mode := "gas"; position := (10, 20)%Z; zoneData := None |}.
Proof. repeat split. Qed.

(** ** Further facts on numbers and loops *)

Module FloatMore.

(** A non-negative number, infinite or not, over a positive finite one. *)
Lemma nonneg_div_pos_finite v f :
  (0 <=? v)%float = true -> (0 <? f)%float = true -> is_finite f = true ->
  (0 <=? v / f)%float = true.
Proof.
  rewrite !FloatFacts.nonneg_spec, FloatFacts.is_finite_spec,
    FloatFacts.pos_spec, div_spec.
  intros Hv Hp Hfin.
  destruct (Prim2SF f) as [sf|[]| |[] mf ef]; try done;
    destruct (Prim2SF v) as [sv|[]| |[] mv ev]; try done.
  pose proof (FloatFacts.SFdiv_finite_sign false mv ev false mf ef) as Hs.
  destruct (SF64div _ _) as [s|s| |s m e]; simpl in Hs; try done; by subst s.
Qed.

(** The discharge of a net storage that is a number is a number. *)
Lemma discharge_not_nan s :
  is_nan s = false -> is_nan (-1 * JS.Math_min 0 s) = false.
Proof.
  intros Hn. rewrite FloatFacts.Math_min_zero, Hn.
  rewrite FloatFacts.is_nan_spec in Hn.
  destruct (0 <? s)%float; [done|].
  rewrite FloatFacts.is_nan_spec, mul_spec.
  change (Prim2SF (-1)) with (S754_finite true 4503599627370496 (-52)).
  destruct (Prim2SF s) as [sv|sv| |sv mv ev]; try done.
  pose proof (FloatFacts.SFmul_finite_sign true 4503599627370496 (-52) sv mv ev)
    as Hs.
  by destruct (SF64mul _ _).
Qed.

(** A net storage that is not negative leaves a zero discharge. *)
Lemma charging_zero s f :
  (0 <=? s)%float = true -> (0 <? f)%float = true ->
  ((-1 * JS.Math_min 0 s) / f =? 0)%float = true.
Proof.
  intros Hs Hf. rewrite FloatFacts.Math_min_zero.
  rewrite FloatFacts.nonneg_spec in Hs. rewrite FloatFacts.pos_spec in Hf.
  rewrite FloatFacts.is_nan_spec, FloatFacts.pos_spec.
  rewrite FloatAxioms.eqb_spec, div_spec.
  change (Prim2SF 0) with (S754_zero false).
  destruct (Prim2SF s) as [sv|[]| |[] mv ev] eqn:Es; try done.
  - rewrite mul_spec, Es.
    by destruct (Prim2SF f) as [sf|[]| |[] mf ef].
  - by destruct (Prim2SF f) as [sf|[]| |[] mf ef].
  - by destruct (Prim2SF f) as [sf|[]| |[] mf ef].
Qed.

Lemma neg_spec x :
  (x <? 0)%float =
  match Prim2SF x with
  | S754_infinity true | S754_finite true _ _ => true
  | _ => false
  end.
Proof.
  rewrite ltb_spec. change (Prim2SF 0) with (S754_zero false).
  by destruct (Prim2SF x) as [s|[]| |[] m e].
Qed.

(** The floor at zero leaves an import as it is and turns an export into 0. *)
Lemma Math_max_zero_div_pos v f :
  (0 <? v)%float = true -> (0 <? f)%float = true -> is_finite f = true ->
  JS.Math_max 0 (v / f) = (v / f)%float.
Proof.
  intros Hv Hf Hfin. rewrite FloatFacts.Math_max_zero_div by done.
  rewrite FloatFacts.Math_max_zero, Hv.
  rewrite FloatFacts.pos_spec in Hv. rewrite FloatFacts.is_nan_spec.
  by destruct (Prim2SF v) as [s|[]| |[] m e].
Qed.

Lemma Math_max_zero_div_neg v f :
  (v <? 0)%float = true -> (0 <? f)%float = true -> is_finite f = true ->
  JS.Math_max 0 (v / f) = 0%float.
Proof.
  intros Hv Hf Hfin. rewrite FloatFacts.Math_max_zero_div by done.
  rewrite FloatFacts.Math_max_zero.
  rewrite neg_spec in Hv.
  rewrite FloatFacts.is_nan_spec, FloatFacts.pos_spec.
  destruct (Prim2SF v) as [s|[]| |[] m e]; try done;
    by apply FloatFacts.zero_div_pos.
Qed.

Lemma SFcompare_antisym x y :
  SFcompare x y = Some Gt -> SFcompare y x = Some Lt.
Proof.
  destruct x as [sx|sx| |sx mx ex], y as [sy|sy| |sy my ey]; simpl; try done;
    repeat match goal with s : bool |- _ => destruct s end; simpl; try done.
  all: change (Pos.compare_cont Eq mx my) with (Pos.compare mx my);
    change (Pos.compare_cont Eq my mx) with (Pos.compare my mx).
  all: rewrite (Z.compare_antisym ex ey), (Pos.compare_antisym mx my).
  all: destruct (ex ?= ey)%Z; simpl; try done; by destruct (mx ?= my)%positive.
Qed.

(** Two numbers neither of which is below the other are the same number. *)
Lemma eqb_of_not_ltb a b :
  is_nan a = false -> is_nan b = false ->
  (a <? b)%float = false -> (b <? a)%float = false ->
  (a =? b)%float = true.
Proof.
  rewrite !FloatFacts.is_nan_spec, !ltb_spec, FloatAxioms.eqb_spec.
  unfold SFltb, SFeqb. intros Ha Hb Hab Hba.
  destruct (SFcompare (Prim2SF a) (Prim2SF b)) as [[]|] eqn:E; try done.
  - by rewrite (SFcompare_antisym _ _ E) in Hba.
  - by destruct (Prim2SF a), (Prim2SF b).
Qed.

End FloatMore.

(** *** Where a loop throws *)

Lemma forEach_TypeError_intro {A S : Type} (callback : S -> A -> completion S)
    (l : list A) (a : A) :
  a ∈ l -> (forall s, callback s a = TypeError) ->
  forall s, forEach callback l s = TypeError.
Proof.
  intros Hin Ha. induction l as [|x l IH]; intros s.
  - by apply elem_of_nil in Hin.
  - simpl. apply elem_of_cons in Hin as [->|Hin].
    + by rewrite Ha.
    + destruct (callback s x); [by apply IH|done].
Qed.

Lemma forEach_TypeError_inv {A S : Type} (callback : S -> A -> completion S)
    (l : list A) :
  forall s, forEach callback l s = TypeError ->
            exists a s0, a ∈ l /\ callback s0 a = TypeError.
Proof.
  induction l as [|x l IH]; intros s H; simpl in H; [done|].
  destruct (callback s x) as [s'|] eqn:E.
  - destruct (IH s' H) as (a & s0 & Hin & Ha).
    exists a, s0. split; [by right|done].
  - exists x, s. split; [by left|done].
Qed.

Lemma mapM_TypeError_intro {A B : Type} (f : A -> completion B) (l : list A) (a : A) :
  a ∈ l -> f a = TypeError -> mapM f l = TypeError.
Proof.
  intros Hin Ha. induction l as [|x l IH].
  - by apply elem_of_nil in Hin.
  - simpl. apply elem_of_cons in Hin as [->|Hin].
    + by rewrite Ha.
    + destruct (f x); [|done]. simpl. by rewrite IH.
Qed.

Lemma mapM_TypeError_inv {A B : Type} (f : A -> completion B) (l : list A) :
  mapM f l = TypeError -> exists a, a ∈ l /\ f a = TypeError.
Proof.
  induction l as [|x l IH]; intros H; simpl in H; [done|].
  destruct (f x) as [b|] eqn:E.
  - simpl in H. destruct (mapM f l) as [k|]; [done|].
    destruct IH as (a & Hin & Ha); [done|].
    exists a. split; [by right|done].
  - exists x. split; [by left|done].
Qed.

Lemma addProduction_TypeError f d obj k :
  (0 <? f)%float = true ->
  addProduction true f d obj k = TypeError
  <-> JS.Number_isFinite (rawValue d k) = true /\ spec_intensityTable d k = None.
Proof.
  intros Hf. unfold addProduction.
  fold (isStorage k). fold (storageKey k). fold (rawValue d k).
  unfold spec_intensityTable.
  destruct (JS.Number_isFinite (rawValue d k)) eqn:Hraw; simpl;
    [|split; [done|by intros [? _]]].
  destruct (isStorage k) eqn:Hs; simpl.
  - assert ((0 <=? JS.ToNumber (rawValue d k) / f)%float = true) as ->.
    { unfold rawValue in *. rewrite Hs in *. simpl in *.
      apply FloatFacts.nonneg_div_pos; try done.
      by apply FloatFacts.discharge_nonneg, is_finite_not_nan. }
    destruct (dischargeCo2Intensities d); simpl; split; try done.
    by intros [_ ?].
  - destruct (productionCo2Intensities d); simpl; split; try done.
    by intros [_ ?].
Qed.

Lemma addExchange_TypeError f d obj key raw :
  addExchange true f d obj (key, raw) = TypeError
  <-> JS.Number_isFinite raw = true /\ exchangeCo2Intensities d = None.
Proof.
  unfold addExchange.
  destruct (JS.Number_isFinite raw); simpl; [|split; [done|by intros [? _]]].
  destruct (exchangeCo2Intensities d); simpl; split; try done.
  by intros [_ ?].
Qed.

Section Throws.

Variable modeOrder : list string.

Lemma layerRecord_TypeError mode f d :
  (0 <? f)%float = true ->
  layerRecord modeOrder true mode f d = TypeError
  <-> readsAbsentTable modeOrder mode d.
Proof.
  intros Hf. unfold layerRecord, readsAbsentTable. split.
  - destruct (forEach _ modeOrder _) as [obj1|] eqn:E1; simpl.
    + case_bool_decide as Hmode; simpl; [|done].
      destruct (forEachOwn _ _ _) as [obj2|] eqn:E2; simpl; [done|].
      intros _. right. unfold forEachOwn in E2.
      apply forEach_TypeError_inv in E2 as ([key raw] & s0 & Hin & Hthrow).
      apply addExchange_TypeError in Hthrow as [Hraw Htab].
      apply elem_of_map_to_list in Hin. eauto 10.
    + intros _. left.
      apply forEach_TypeError_inv in E1 as (k & s0 & Hin & Hthrow).
      apply addProduction_TypeError in Hthrow as [Hraw Htab]; [|done].
      eauto.
  - intros [(k & Hin & Hraw & Htab)|(Hmode & Htab & key & raw & Hin & Hraw)].
    + rewrite (forEach_TypeError_intro _ modeOrder k Hin); [done|].
      intros s. by apply addProduction_TypeError.
    + destruct (forEach _ modeOrder _) as [obj1|]; simpl; [|done].
      rewrite bool_decide_eq_true_2 by done. unfold forEachOwn.
      rewrite (forEach_TypeError_intro _ _ (key, raw)); [done| |].
      * by apply elem_of_map_to_list.
      * intros s. by apply addExchange_TypeError.
Qed.

End Throws.

(** *** Storage category names *)

Lemma index_storage_suffix b :
  noSpace b ->
  String.index 0 " storage" (b +:+ " storage") = Some (String.length b).
Proof.
  unfold noSpace. induction b as [|a b IH]; intros Hb; [done|].
  simpl in Hb. apply Forall_cons in Hb as [Ha Hb].
  change (String a b +:+ " storage") with (String a (b +:+ " storage")).
  change (String.index 0 " storage" (String a (b +:+ " storage")))
    with (if String.prefix " storage" (String a (b +:+ " storage"))
          then Some 0
          else match String.index 0 " storage" (b +:+ " storage") with
               | Some n => Some (S n)
               | None => None
               end).
  assert (String.prefix " storage" (String a (b +:+ " storage")) = false) as ->.
  { change (String.prefix " storage" (String a (b +:+ " storage")))
      with (if Ascii.ascii_dec Ascii.Space a
            then String.prefix "storage" (b +:+ " storage") else false).
    destruct (Ascii.ascii_dec Ascii.Space a) as [E|]; [|done].
    exfalso. by apply Ha. }
  by rewrite IH.
Qed.

Lemma index_storage_found b :
  exists n, String.index 0 "storage" (b +:+ " storage") = Some n.
Proof.
  induction b as [|a b [n IH]]; [by eexists|].
  change (String a b +:+ " storage") with (String a (b +:+ " storage")).
  change (String.index 0 "storage" (String a (b +:+ " storage")))
    with (if String.prefix "storage" (String a (b +:+ " storage"))
          then Some 0
          else match String.index 0 "storage" (b +:+ " storage") with
               | Some n => Some (S n)
               | None => None
               end).
  destruct (String.prefix _ _); [by eexists|].
  rewrite IH. by eexists.
Qed.

Lemma substring_append_prefix b t :
  String.substring 0 (String.length b) (b +:+ t) = b.
Proof.
  induction b as [|a b IH]; simpl; [by destruct t|by rewrite IH].
Qed.

Lemma substring_append_skip b t n m :
  String.substring (String.length b + n) m (b +:+ t) = String.substring n m t.
Proof. induction b as [|a b IH]; simpl; [done|apply IH]. Qed.

Lemma append_empty_r s : s +:+ "" = s.
Proof.
  induction s as [|a s IH]; [done|].
  change (String a s +:+ "") with (String a (s +:+ "")). by rewrite IH.
Qed.

Lemma storage_category_name b :
  noSpace b ->
  isStorage (b +:+ " storage") = true /\ storageKey (b +:+ " storage") = b.
Proof.
  intros Hb. split.
  - unfold isStorage, JS.indexOf.
    destruct (index_storage_found b) as [n ->].
    apply negb_true_iff, Z.eqb_neq. lia.
  - unfold storageKey, JS.replace. rewrite (index_storage_suffix b Hb).
    rewrite substring_append_prefix, substring_append_skip.
    destruct (_ - _); simpl; by rewrite append_empty_r.
Qed.

(** *** The peak and the order of the batch *)

Lemma d3Max_skips_nan {A : Type} (valueof : A -> JS.value) (l1 l2 : list A) (a : A) :
  JS.neq_null (valueof a) = true ->
  is_nan (JS.ToNumber (valueof a)) = true ->
  d3Max (l1 ++ a :: l2) valueof = d3Max (l1 ++ l2) valueof.
Proof.
  intros Hnn Hnan. unfold d3Max. rewrite !foldl_app. simpl. f_equal.
  rewrite Hnn. unfold JS.lt, JS.ge.
  rewrite (FloatFacts.ltb_nan_r _ _ Hnan), FloatFacts.leb_refl, Hnan. simpl.
  by rewrite andb_false_r.
Qed.

Lemma isMaxOf_unique {A : Type} (q : A -> float) (l : list A) (a b : JS.value) :
  isMaxOf q l a -> isMaxOf q l b -> samePeak a b.
Proof.
  destruct a as [| |x], b as [| |y]; simpl; try done.
  - intros Hall ((a0 & Hin & Hq) & Hn & _).
    rewrite <- Hq, (Hall a0 Hin) in Hn. done.
  - intros ((a0 & Hin & Hq) & Hn & _) Hall.
    rewrite <- Hq, (Hall a0 Hin) in Hn. done.
  - intros ((ax & Hinx & Hqx) & Hnx & Hmaxx) ((ay & Hiny & Hqy) & Hny & Hmaxy).
    apply FloatMore.eqb_of_not_ltb; try done.
    + rewrite <- Hqy. by apply Hmaxx.
    + rewrite <- Hqx. by apply Hmaxy.
Qed.

Lemma isMaxOf_perm {A : Type} (q : A -> float) (l l' : list A) (m : JS.value) :
  l ≡ₚ l' -> isMaxOf q l m -> isMaxOf q l' m.
Proof.
  intros Hp. destruct m as [| |x]; simpl; [|done|].
  - intros H a Ha. apply H. by rewrite Hp.
  - intros ((a0 & Hin & Hq) & Hn & Hmax). split; [|split; [done|]].
    + exists a0. split; [by rewrite <- Hp|done].
    + intros a Ha. apply Hmax. by rewrite Hp.
Qed.

(** *** The back-reference of the datapoints *)

Lemma prepared_rows_meta modeOrder modeColor scalePower getCo2Scale
    hd cb em mode ek out :
  hd <> [] ->
  prepareGraphData modeOrder modeColor scalePower getCo2Scale
    (Some hd) cb em mode ek = Normal out ->
  exists rows,
    data out = Some rows
    /\ Forall2 (fun d (obj : LayerRecord) => obj !! "meta" = Some (Meta d)) hd rows.
Proof.
  intros Hne Hout.
  destruct (prepareGraphData_Normal _ _ _ _ _ _ _ _ _ _ Hne Hout)
    as (rows & Hdata & _ & _ & _ & Hrows).
  exists rows. split; [done|].
  eapply Forall2_impl; [exact Hrows|].
  intros d obj Hrec. cbv beta in Hrec.
  by rewrite (layerRecord_lookup _ _ _ _ d obj "meta" Hrec).
Qed.

(** *** The exchange loop and the order of its visits *)

Lemma addExchange_TypeError_any_state em f d s s' entry :
  addExchange em f d s entry = TypeError ->
  addExchange em f d s' entry = TypeError.
Proof.
  destruct entry as [key raw]. unfold addExchange.
  destruct (_ && _ && _); [|done].
  by destruct (get_prop _ _).
Qed.

(** ** Further properties of the transform *)

Section FurtherProperties.

Variable modeOrder : list string.
Variable modeColor : gmap string string.
Variable scalePower : JS.value -> Format.t.
Variable getCo2Scale : bool -> JS.value -> string.

Local Abbreviation prepare :=
  (prepareGraphData modeOrder modeColor scalePower getCo2Scale).
Local Abbreviation scaleFactor hd em :=
  (Info.valueFactor (getValuesInfo scalePower hd em)).

(** X1.  The data array of a non-empty batch has one datapoint per history
    record, in the order of the batch, and the [meta] property of each
    datapoint is its own source record, whatever keys the record's exchange
    mapping or the mode order carry. *)
Theorem datapoints_keep_source hd cb em mode ek out :
  hd <> [] ->
  prepare (Some hd) cb em mode ek = Normal out ->
  exists rows,
    data out = Some rows
    /\ length rows = length hd
    /\ forall i d,
         hd !! i = Some d ->
         exists obj, rows !! i = Some obj /\ obj !! "meta" = Some (Meta d).
Proof.
  intros Hne Hout.
  destruct (prepared_rows_meta _ _ _ _ _ _ _ _ _ _ Hne Hout)
    as (rows & Hdata & Hrows).
  exists rows. split; [done|]. split.
  - symmetry. by eapply Forall2_length.
  - intros i d Hi.
    destruct (Forall2_lookup_l _ _ _ _ _ Hrows Hi) as (obj & Hobj & Hm).
    by exists obj.
Qed.

(** X2.  The properties of a datapoint are exactly [meta], [datetime], the
    keys of the mode order and, in mode "consumption", the keys of the
    record's exchange mapping; [datetime] holds the record's timestamp unless
    a category or a shown exchange partner has that name. *)
Theorem datapoint_keys hd cb em mode ek out :
  hd <> [] ->
  prepare (Some hd) cb em mode ek = Normal out ->
  exists rows,
    data out = Some rows /\
    Forall2
      (fun d obj =>
         dom obj
         = ({[ "meta"; "datetime" ]} ∪ list_to_set modeOrder
            ∪ dom (shownExchange mode d) : gset string)
         /\ ("datetime" ∉ modeOrder ->
             shownExchange mode d !! "datetime" = None ->
             obj !! "datetime" = Some (Datetime (stateDatetime d))))
      hd rows.
Proof.
  intros Hne Hout.
  destruct (prepareGraphData_Normal _ _ _ _ _ _ _ _ _ _ Hne Hout)
    as (rows & Hdata & _ & _ & _ & Hrows).
  exists rows. split; [done|].
  eapply Forall2_impl; [exact Hrows|].
  intros d obj Hobj. cbv beta in Hobj.
  pose proof (layerRecord_lookup modeOrder em mode (scaleFactor hd em) d obj)
    as Hlook.
  specialize (fun key => Hlook key Hobj).
  split.
  - apply set_eq. intros key.
    rewrite !elem_of_union, elem_of_list_to_set, !elem_of_dom,
      !elem_of_singleton, Hlook.
    destruct (decide (key = "meta")) as [->|Hmeta].
    { split; [tauto|by eexists]. }
    rewrite (bool_decide_eq_false_2 (key = "meta")) by done.
    destruct (shownExchange mode d !! key) as [raw|] eqn:Eraw.
    { split; [intros _; right; by eexists|by eexists]. }
    destruct (decide (key ∈ modeOrder)) as [Hin|Hnin].
    { rewrite bool_decide_eq_true_2 by done. split; [tauto|by eexists]. }
    rewrite (bool_decide_eq_false_2 (key ∈ modeOrder)) by done.
    destruct (decide (key = "datetime")) as [->|Hdt].
    { split; [tauto|by eexists]. }
    rewrite (bool_decide_eq_false_2 (key = "datetime")) by done.
    split; [by intros [? ?]|].
    intros [[[?|?]|?]|[? ?]]; done.
  - intros Hcat Hex. rewrite Hlook, Hex.
    rewrite bool_decide_eq_false_2 by done.
    by rewrite bool_decide_eq_false_2 by done.
Qed.

(** X3.  In power display no intensity table is read: for every batch,
    present or not, and every record in it, the call returns a result and
    throws nothing; the result lacks its data array exactly when the batch is
    absent or empty. *)
Theorem power_display_never_throws hd cb mode ek :
  exists out,
    prepare hd cb false mode ek = Normal out
    /\ (data out = None <-> hd = None \/ hd = Some []).
Proof.
  destruct (prepareGraphData_power_total modeOrder modeColor scalePower
              getCo2Scale hd cb mode ek) as [out Hout].
  exists out. split; [done|].
  destruct hd as [[|d0 hd0]|].
  - change (Normal emptyObject = Normal out) in Hout.
    injection Hout as <-. split; [by right|done].
  - assert (Hne : d0 :: hd0 <> []) by discriminate.
    destruct (prepareGraphData_Normal _ _ _ _ _ _ _ _ _ _ Hne Hout)
      as (rows & Hdata & _).
    rewrite Hdata. split; [done|by intros [|]].
  - change (Normal emptyObject = Normal out) in Hout.
    injection Hout as <-. split; [by left|done].
Qed.

(** X4.  In emissions display, with a positive scale factor, the call throws
    a TypeError exactly when some record of the batch makes the conversion
    read an intensity table that is absent: a category of the mode order with
    a finite raw value and no production (or, for a storage category,
    discharge) table, or, in mode "consumption", a finite exchange value and
    no exchange table. *)
Theorem emissions_display_throws_iff hd cb mode ek :
  hd <> [] ->
  (0 <? scaleFactor hd true)%float = true ->
  prepare (Some hd) cb true mode ek = TypeError
  <-> Exists (readsAbsentTable modeOrder mode) hd.
Proof.
  intros Hne Hf. unfold prepareGraphData.
  destruct hd as [|d0 hd0]; [done|].
  set (hd := d0 :: hd0) in *. rewrite Exists_exists. split.
  - destruct (mapM _ hd) as [rows|] eqn:E; [done|]. intros _.
    apply mapM_TypeError_inv in E as (d & Hin & Hthrow).
    exists d. split; [done|]. by apply (layerRecord_TypeError modeOrder mode _ d Hf).
  - intros (d & Hin & Hbad).
    apply (layerRecord_TypeError modeOrder mode _ d Hf) in Hbad.
    by rewrite (mapM_TypeError_intro _ hd d Hin Hbad).
Qed.

(** X5.  In power display with a positive finite scale factor, the property
    of a storage category whose net storage entry is a number is never
    negative, and it is zero whenever the net storage is not negative
    (charging). *)
Theorem storage_fields_nonneg hd cb mode ek out :
  hd <> [] ->
  (0 <? scaleFactor hd false)%float = true ->
  is_finite (scaleFactor hd false) = true ->
  prepare (Some hd) cb false mode ek = Normal out ->
  exists rows,
    data out = Some rows /\
    Forall2
      (fun d obj =>
         forall k,
           k ∈ modeOrder -> isStorage k = true -> k <> "meta" ->
           shownExchange mode d !! k = None ->
           is_nan (JS.ToNumber (JS.get_or_empty (storage d) (storageKey k))) = false ->
           exists x,
             obj !! k = Some (Number x)
             /\ (0 <=? x)%float = true
             /\ ((0 <=? JS.ToNumber (JS.get_or_empty (storage d) (storageKey k)))%float
                 = true -> (x =? 0)%float = true))
      hd rows.
Proof.
  intros Hne Hpos Hfin Hout.
  destruct (prepareGraphData_Normal _ _ _ _ _ _ _ _ _ _ Hne Hout)
    as (rows & Hdata & _ & _ & _ & Hrows).
  exists rows. split; [done|].
  eapply Forall2_impl; [exact Hrows|].
  intros d obj Hobj k Hin Hs Hmeta Hex Hnan. cbv beta in Hobj.
  rewrite (layerRecord_lookup modeOrder false mode (scaleFactor hd false) d obj k Hobj).
  rewrite bool_decide_eq_false_2, Hex, bool_decide_eq_true_2 by done.
  eexists. split; [done|].
  unfold categoryValue, rawValue. rewrite Hs, andb_false_r.
  cbn [JS.ToNumber andb]. split.
  - apply FloatMore.nonneg_div_pos_finite; try done.
    by apply FloatFacts.discharge_nonneg, FloatMore.discharge_not_nan.
  - intros Hcharge. by apply FloatMore.charging_zero.
Qed.

(** X6.  With a positive finite scale factor, a production entry that is
    null shows as 0 for its generation category, and an exchange entry that
    is null shows as 0 in mode "consumption", in power display and in
    emissions display alike: null passes for 0 and is never converted. *)
Theorem null_entries_show_zero hd cb em mode ek out :
  hd <> [] ->
  (0 <? scaleFactor hd em)%float = true ->
  is_finite (scaleFactor hd em) = true ->
  prepare (Some hd) cb em mode ek = Normal out ->
  exists rows,
    data out = Some rows /\
    Forall2
      (fun d obj =>
         (forall k,
             k ∈ modeOrder -> isStorage k = false -> k <> "meta" ->
             shownExchange mode d !! k = None ->
             default ∅ (production d) !! k = Some JS.Null ->
             obj !! k = Some (Number 0))
         /\ (forall key,
                mode = "consumption" -> key <> "meta" ->
                default ∅ (exchange d) !! key = Some JS.Null ->
                obj !! key = Some (Number 0)))
      hd rows.
Proof.
  intros Hne Hpos Hfin Hout.
  destruct (prepareGraphData_Normal _ _ _ _ _ _ _ _ _ _ Hne Hout)
    as (rows & Hdata & _ & _ & _ & Hrows).
  exists rows. split; [done|].
  eapply Forall2_impl; [exact Hrows|].
  intros d obj Hobj. cbv beta in Hobj.
  pose proof (layerRecord_lookup modeOrder em mode (scaleFactor hd em) d obj)
    as Hlook.
  specialize (fun key => Hlook key Hobj).
  pose proof (FloatFacts.zero_div_pos _ Hpos Hfin) as Hzero.
  split.
  - intros k Hin Hs Hmeta Hex Hnull. rewrite Hlook.
    rewrite bool_decide_eq_false_2, Hex, bool_decide_eq_true_2 by done.
    unfold categoryValue, rawValue, JS.get_or_empty. rewrite Hs, Hnull.
    change (default JS.Undefined (Some JS.Null)) with JS.Null.
    cbn [JS.ToNumber JS.Number_isFinite andb]. by rewrite Hzero.
  - intros key Hmode Hmeta Hnull. rewrite Hlook.
    rewrite bool_decide_eq_false_2 by done.
    unfold shownExchange. rewrite bool_decide_eq_true_2, Hnull by done.
    unfold exchangeValue.
    cbn [fst snd JS.ToNumber JS.Number_isFinite andb]. by rewrite Hzero.
Qed.

(** X7.  In power display with a positive finite scale factor and mode
    "consumption", the floor at zero leaves an import untouched, its property
    being the raw value divided by the scale factor, and turns an export into
    exactly 0. *)
Theorem exchange_floor_keeps_imports hd cb ek out :
  hd <> [] ->
  (0 <? scaleFactor hd false)%float = true ->
  is_finite (scaleFactor hd false) = true ->
  prepare (Some hd) cb false "consumption" ek = Normal out ->
  exists rows,
    data out = Some rows /\
    Forall2
      (fun d obj =>
         forall key v,
           key <> "meta" ->
           default ∅ (exchange d) !! key = Some (JS.Num v) ->
           ((0 <? v)%float = true ->
            obj !! key = Some (Number (v / scaleFactor hd false)))
           /\ ((v <? 0)%float = true -> obj !! key = Some (Number 0)))
      hd rows.
Proof.
  intros Hne Hpos Hfin Hout.
  destruct (prepareGraphData_Normal _ _ _ _ _ _ _ _ _ _ Hne Hout)
    as (rows & Hdata & _ & _ & _ & Hrows).
  exists rows. split; [done|].
  eapply Forall2_impl; [exact Hrows|].
  intros d obj Hobj key v Hmeta Hraw. cbv beta in Hobj.
  rewrite (layerRecord_lookup modeOrder false "consumption"
             (scaleFactor hd false) d obj key Hobj).
  rewrite bool_decide_eq_false_2 by done.
  unfold shownExchange. rewrite bool_decide_eq_true_2, Hraw by done.
  unfold exchangeValue. rewrite andb_false_r.
  cbn [fst snd JS.ToNumber andb].
  split; intros Hv.
  - by rewrite FloatMore.Math_max_zero_div_pos.
  - by rewrite FloatMore.Math_max_zero_div_neg.
Qed.

(** X8.  For a base name without a space, the category "<base> storage" is
    a storage category read under the base name: in power display its loop
    body writes the negative part of [storage[base]], negated, over the scale
    factor; in emissions display, for a finite such value and a positive
    factor, it multiplies by [dischargeCo2Intensities[base]] / 1000 / 60 and
    throws when that table is absent. *)
Theorem storage_category_reads_base_name b f d obj :
  noSpace b ->
  addProduction false f d obj (b +:+ " storage")
  = Normal (<[b +:+ " storage" :=
               Number (-1 * JS.Math_min 0
                              (JS.ToNumber (JS.get_or_empty (storage d) b)) / f)]> obj)
  /\ (is_finite (-1 * JS.Math_min 0 (JS.ToNumber (JS.get_or_empty (storage d) b)))
      = true ->
      (0 <? f)%float = true ->
      addProduction true f d obj (b +:+ " storage")
      = match dischargeCo2Intensities d with
        | Some t =>
            Normal (<[b +:+ " storage" :=
                      Number (-1 * JS.Math_min 0
                                     (JS.ToNumber (JS.get_or_empty (storage d) b)) / f
                              * (JS.ToNumber (default JS.Undefined (t !! b))
                                 / 1000 / 60))]> obj)
        | None => TypeError
        end).
Proof.
  intros Hb. destruct (storage_category_name b Hb) as [Hs Hk].
  unfold addProduction.
  fold (isStorage (b +:+ " storage")). fold (storageKey (b +:+ " storage")).
  rewrite Hs, Hk. cbn [negb andb JS.ToNumber]. split.
  - by rewrite andb_false_r.
  - intros Hfin Hf. cbn [JS.Number_isFinite JS.neq_null]. rewrite Hfin.
    cbn [andb].
    rewrite (FloatFacts.nonneg_div_pos _ f); try done.
    + destruct (dischargeCo2Intensities d); [|done].
      cbn. by rewrite insert_insert_eq.
    + by apply FloatFacts.discharge_nonneg, is_finite_not_nan.
Qed.

(** X9.  The fill of a layer: a key outside the exchange keys gets its
    colour of the [modeColor] table, if any; an exchange key gets a function
    that, on every datapoint the same call produced, returns the colour the
    CO2 scale gives to the source record's exchange intensity for that key
    ([undefined] when the table or the entry is missing) and never throws. *)
Theorem layer_fill_on_datapoints hd cb em mode ek out :
  hd <> [] ->
  prepare (Some hd) cb em mode ek = Normal out ->
  exists rows fillOf,
    data out = Some rows
    /\ layerFill out = Some fillOf
    /\ (forall key, key ∉ ek -> fillOf key = FillColor (modeColor !! key))
    /\ (forall key,
           key ∈ ek ->
           exists f,
             fillOf key = FillByDatapoint f
             /\ forall i d obj,
                  hd !! i = Some d -> rows !! i = Some obj ->
                  f obj = Normal (getCo2Scale cb
                                    (JS.get_or_empty (exchangeCo2Intensities d) key))).
Proof.
  intros Hne Hout.
  destruct (prepared_rows_meta _ _ _ _ _ _ _ _ _ _ Hne Hout)
    as (rows & Hdata & Hmeta).
  revert Hout. unfold prepareGraphData. destruct hd as [|d0 hd0]; [done|].
  destruct (mapM _ (d0 :: hd0)) as [rows'|] eqn:E; [|done].
  intros [= <-]. simpl in Hdata. injection Hdata as ->.
  eexists rows, _. split; [done|]. split; [done|]. split.
  - intros key Hkey. by rewrite bool_decide_eq_false_2.
  - intros key Hkey. rewrite bool_decide_eq_true_2 by done.
    eexists. split; [done|].
    intros i d obj Hi Hobj.
    destruct (Forall2_lookup_l _ _ _ _ _ Hmeta Hi) as (obj' & Hobj' & Hm).
    rewrite Hobj in Hobj'. injection Hobj' as <-. by rewrite Hm.
Qed.

(** X10.  A record whose total is not a number (a total that is missing, for
    one) has no influence on the axis label and on the scale factor, wherever
    it stands in the batch. *)
Theorem peak_ignores_missing_totals l1 l2 d em :
  is_nan (JS.ToNumber (recordTotal em d)) = true ->
  getValuesInfo scalePower (l1 ++ d :: l2) em
  = getValuesInfo scalePower (l1 ++ l2) em.
Proof.
  intros Hnan. unfold getValuesInfo.
  change (d3Max (l1 ++ d :: l2) _) with (d3Max (l1 ++ d :: l2) (recordTotal em)).
  change (d3Max (l1 ++ l2) _) with (d3Max (l1 ++ l2) (recordTotal em)).
  rewrite (d3Max_skips_nan (recordTotal em) l1 l2 d); [done| |done].
  by destruct em.
Qed.

(** X14.  The loop over the exchange mapping gives the same outcome in
    whatever order the entries of the mapping are visited: the same datapoint,
    or a throw in both orders. *)
Theorem exchange_loop_order_independent em f d obj
    (entries entries' : list (string * JS.value)) :
  NoDup entries.*1 ->
  entries ≡ₚ entries' ->
  forEach (addExchange em f d) entries obj
  = forEach (addExchange em f d) entries' obj.
Proof.
  intros Hnd Hp.
  assert (Hnd' : NoDup entries'.*1) by (by rewrite <- Hp).
  assert (Hthrow : forall l l' : list (string * JS.value),
             l ≡ₚ l' ->
             forEach (addExchange em f d) l obj = TypeError ->
             forEach (addExchange em f d) l' obj = TypeError).
  { intros l l' Hll H.
    apply forEach_TypeError_inv in H as (entry & s0 & Hin & He).
    apply (forEach_TypeError_intro _ l' entry); [by rewrite <- Hll|].
    intros s. by apply (addExchange_TypeError_any_state em f d s0). }
  destruct (forEach _ entries obj) as [s1|] eqn:E1;
    destruct (forEach _ entries' obj) as [s2|] eqn:E2; try done.
  - f_equal.
    apply (forEach_writes _ _ _ (addExchange_writes em f d)) in E1, E2.
    subst s1 s2. apply map_eq. intros key.
    rewrite !(lookup_foldl_insert_entries
                (fun entry => Number (exchangeValue em f d entry))) by done.
    by rewrite (list_to_map_proper entries entries' Hnd Hp).
  - by rewrite (Hthrow entries' entries) in E1.
  - by rewrite (Hthrow entries entries') in E2.
Qed.

(** X15.  Every exchange key is a layer key, whatever the mode; but a
    datapoint has a property for an exchange key (one that is neither a
    category key nor a reserved name) only in mode "consumption" and only when
    the record's own exchange mapping has that key: in any other case the
    layer has no value at that datapoint. *)
Theorem exchange_layers_without_values hd cb em mode ek out :
  hd <> [] ->
  prepare (Some hd) cb em mode ek = Normal out ->
  exists rows keys,
    data out = Some rows
    /\ layerKeys out = Some keys
    /\ forall key,
         key ∈ ek ->
         key ∈ keys
         /\ (key ∉ modeOrder -> key <> "datetime" -> key <> "meta" ->
             Forall2
               (fun d (obj : LayerRecord) =>
                  is_Some (obj !! key)
                  <-> mode = "consumption"
                      /\ is_Some (default ∅ (exchange d) !! key))
               hd rows).
Proof.
  intros Hne Hout.
  destruct (prepareGraphData_Normal _ _ _ _ _ _ _ _ _ _ Hne Hout)
    as (rows & Hdata & Hkeys & _ & _ & Hrows).
  exists rows, (modeOrder ++ ek). split; [done|]. split; [done|].
  intros key Hkey. split; [apply elem_of_app; by right|].
  intros Hcat Hdt Hmeta.
  eapply Forall2_impl; [exact Hrows|].
  intros d obj Hobj. cbv beta in Hobj.
  rewrite (layerRecord_lookup modeOrder em mode (scaleFactor hd em) d obj key Hobj).
  rewrite (bool_decide_eq_false_2 (key = "meta")) by done.
  rewrite (bool_decide_eq_false_2 (key ∈ modeOrder)) by done.
  rewrite (bool_decide_eq_false_2 (key = "datetime")) by done.
  unfold shownExchange.
  destruct (decide (mode = "consumption")) as [Hmode|Hmode].
  - rewrite bool_decide_eq_true_2 by done.
    destruct (default ∅ (exchange d) !! key) as [raw|].
    + split; [by intros _; split; [|eexists]|by eexists].
    + split; [by intros [? ?]|by intros [_ [? ?]]].
  - rewrite bool_decide_eq_false_2, lookup_empty by done.
    split; [by intros [? ?]|by intros [? _]].
Qed.

End FurtherProperties.

(** X11.  The peak that goes to the formatter does not depend on the order of
    the batch: two batches with the same records have the same number as
    their peak, or both have none. *)
Theorem peak_is_order_independent hd hd' em :
  hd ≡ₚ hd' ->
  samePeak (maxTotalValue hd em) (maxTotalValue hd' em).
Proof.
  intros Hp.
  apply (isMaxOf_unique (fun d => JS.ToNumber (recordTotal em d)) hd').
  - apply (isMaxOf_perm _ hd hd' _ Hp), maxTotalValue_isMaxOf.
  - apply maxTotalValue_isMaxOf.
Qed.

Section FurtherHandlerProperties.

Variable Position : Type.
Variable getTooltipPosition : bool -> Position -> Position.

Lemma foldl_handle_tooltip isMobile (events : list (event Position)) :
  forall s s',
    tooltip s = tooltip s' ->
    tooltip (foldl (handle getTooltipPosition isMobile) s events)
    = tooltip (foldl (handle getTooltipPosition isMobile) s'
                 (List.filter isMarkerEvent events)).
Proof.
  induction events as [|e es IH]; intros s s' H; [done|].
  destruct e; simpl; apply IH; simpl; done.
Qed.

Lemma foldl_handle_layer isMobile (events : list (event Position)) :
  forall s s',
    selectedLayerIndex s = selectedLayerIndex s' ->
    selectedLayerIndex (foldl (handle getTooltipPosition isMobile) s events)
    = selectedLayerIndex (foldl (handle getTooltipPosition isMobile) s'
                            (List.filter isLayerEvent events)).
Proof.
  induction events as [|e es IH]; intros s s' H; [done|].
  destruct e; simpl; apply IH; simpl; done.
Qed.

Lemma foldl_handle_time isMobile (events : list (event Position)) :
  forall s s',
    selectedZoneTimeIndex s = selectedZoneTimeIndex s' ->
    selectedZoneTimeIndex (foldl (handle getTooltipPosition isMobile) s events)
    = selectedZoneTimeIndex
        (foldl (handle getTooltipPosition isMobile) s'
           (List.filter (fun e => negb (isMarkerEvent e)) events)).
Proof.
  induction events as [|e es IH]; intros s s' H; [done|].
  destruct e; simpl; apply IH; simpl; done.
Qed.

(** X12.  After any sequence of callbacks, the tooltip is what the marker
    callbacks alone would have left, the selected layer index what the layer
    callbacks alone would have left, and the selected time index what the
    background and layer callbacks alone would have left: no handler writes a
    cell that is not its own. *)
Theorem cells_follow_their_own_callbacks isMobile stored
    (events : list (event Position)) :
  tooltip (run getTooltipPosition isMobile stored events)
  = tooltip (run getTooltipPosition isMobile stored
               (List.filter isMarkerEvent events))
  /\ selectedLayerIndex (run getTooltipPosition isMobile stored events)
     = selectedLayerIndex (run getTooltipPosition isMobile stored
                             (List.filter isLayerEvent events))
  /\ selectedZoneTimeIndex (run getTooltipPosition isMobile stored events)
     = selectedZoneTimeIndex
         (run getTooltipPosition isMobile stored
            (List.filter (fun e => negb (isMarkerEvent e)) events)).
Proof.
  unfold run. split; [|split].
  - by apply foldl_handle_tooltip.
  - by apply foldl_handle_layer.
  - by apply foldl_handle_time.
Qed.

Variable modeOrder : list string.
Variable modeColor : gmap string string.
Variable scalePower : JS.value -> Format.t.
Variable getCo2Scale : bool -> JS.value -> string.

(** X13.  A marker update on a datapoint that [prepareGraphData] produced
    renders a tooltip for the hovered layer key that carries the datapoint's
    source history record: the exchange tooltip when the key is one of the
    exchange keys, the production tooltip otherwise; a marker hide after it
    renders none. *)
Theorem tooltip_shows_source_record hd cb em mode ek out rows i d obj
    isMobile s position key :
  prepareGraphData modeOrder modeColor scalePower getCo2Scale
    (Some hd) cb em mode ek = Normal out ->
  data out = Some rows ->
  hd !! i = Some d ->
  rows !! i = Some obj ->
  renderTooltip ek
    (handle getTooltipPosition isMobile s (MarkerUpdate position obj key))
  = Some ((if bool_decide (key ∈ ek) then ExchangeTooltip else ProductionTooltip)
            {| mode := key;
               position := getTooltipPosition isMobile position;
               zoneData := Some (Meta d) |})
  /\ renderTooltip ek
       (handle getTooltipPosition isMobile
          (handle getTooltipPosition isMobile s (MarkerUpdate position obj key))
          MarkerHide)
     = None.
Proof.
  intros Hout Hdata Hi Hobj.
  assert (Hne : hd <> []) by (intros ->; by rewrite lookup_nil in Hi).
  destruct (prepared_rows_meta _ _ _ _ _ _ _ _ _ _ Hne Hout)
    as (rows' & Hdata' & Hmeta).
  rewrite Hdata in Hdata'. injection Hdata' as <-.
  destruct (Forall2_lookup_l _ _ _ _ _ Hmeta Hi) as (obj' & Hobj' & Hm).
  rewrite Hobj in Hobj'. injection Hobj' as <-.
  split; [|done].
  unfold renderTooltip. simpl. rewrite Hm. by case_bool_decide.
Qed.

End FurtherHandlerProperties.

(** ** The further properties on the sample records *)

(** The back-reference of the sample observation. *)
Lemma datapoints_keep_source_witness :
  exists rows,
    data (Sample.out (Some [Sample.record (-40)]) false "consumption") = Some rows
    /\ length rows = length [Sample.record (-40)]
    /\ forall i d,
         [Sample.record (-40)] !! i = Some d ->
         exists obj, rows !! i = Some obj /\ obj !! "meta" = Some (Meta d).
Proof.
  apply (datapoints_keep_source Sample.modeOrder Sample.modeColor
           Sample.scalePower Sample.getCo2Scale
           [Sample.record (-40)] false false "consumption" ["US"]).
  - discriminate.
  - vm_compute. reflexivity.
Defined.

(** The keys of the sample observation's datapoint. *)
Lemma datapoint_keys_witness :
  exists rows,
    data (Sample.out (Some [Sample.record (-40)]) false "consumption") = Some rows /\
    Forall2
      (fun d obj =>
         dom obj
         = ({[ "meta"; "datetime" ]} ∪ list_to_set Sample.modeOrder
            ∪ dom (shownExchange "consumption" d) : gset string)
         /\ ("datetime" ∉ Sample.modeOrder ->
             shownExchange "consumption" d !! "datetime" = None ->
             obj !! "datetime" = Some (Datetime (stateDatetime d))))
      [Sample.record (-40)] rows.
Proof.
  apply (datapoint_keys Sample.modeOrder Sample.modeColor
           Sample.scalePower Sample.getCo2Scale
           [Sample.record (-40)] false false "consumption" ["US"]).
  - discriminate.
  - vm_compute. reflexivity.
Defined.

(** The observation delivered without its intensity tables. *)
Lemma emissions_display_throws_iff_witness :
  Sample.prepare (Some [Sample.recordNoTables]) true "consumption" = TypeError
  <-> Exists (readsAbsentTable Sample.modeOrder "consumption")
        [Sample.recordNoTables].
Proof.
  apply (emissions_display_throws_iff Sample.modeOrder Sample.modeColor
           Sample.scalePower Sample.getCo2Scale
           [Sample.recordNoTables] false "consumption" ["US"]).
  - discriminate.
  - vm_compute. reflexivity.
Defined.

(** The storage categories of the large observation, in GW. *)
Lemma storage_fields_nonneg_witness :
  exists rows,
    data (Sample.out (Some [sampleLarge]) false "consumption") = Some rows /\
    Forall2
      (fun d obj =>
         forall k,
           k ∈ Sample.modeOrder -> isStorage k = true -> k <> "meta" ->
           shownExchange "consumption" d !! k = None ->
           is_nan (JS.ToNumber (JS.get_or_empty (storage d) (storageKey k))) = false ->
           exists x,
             obj !! k = Some (Number x)
             /\ (0 <=? x)%float = true
             /\ ((0 <=? JS.ToNumber (JS.get_or_empty (storage d) (storageKey k)))%float
                 = true -> (x =? 0)%float = true))
      [sampleLarge] rows.
Proof.
  apply (storage_fields_nonneg Sample.modeOrder Sample.modeColor
           Sample.scalePower Sample.getCo2Scale
           [sampleLarge] false "consumption" ["US"]).
  - discriminate.
  - vm_compute. reflexivity.
  - vm_compute. reflexivity.
  - vm_compute. reflexivity.
Defined.

(** The null wind production and the null exchange with CA of the large
    observation, under emissions display. *)
Lemma null_entries_show_zero_witness :
  exists rows,
    data (Sample.out (Some [sampleLarge]) true "consumption") = Some rows /\
    Forall2
      (fun d obj =>
         (forall k,
             k ∈ Sample.modeOrder -> isStorage k = false -> k <> "meta" ->
             shownExchange "consumption" d !! k = None ->
             default ∅ (production d) !! k = Some JS.Null ->
             obj !! k = Some (Number 0))
         /\ (forall key,
                "consumption" = "consumption" -> key <> "meta" ->
                default ∅ (exchange d) !! key = Some JS.Null ->
                obj !! key = Some (Number 0)))
      [sampleLarge] rows.
Proof.
  apply (null_entries_show_zero Sample.modeOrder Sample.modeColor
           Sample.scalePower Sample.getCo2Scale
           [sampleLarge] false true "consumption" ["US"]).
  - discriminate.
  - vm_compute. reflexivity.
  - vm_compute. reflexivity.
  - vm_compute. reflexivity.
Defined.

(** The export to US of the large observation. *)
Lemma exchange_floor_keeps_imports_witness :
  exists rows,
    data (Sample.out (Some [sampleLarge]) false "consumption") = Some rows /\
    Forall2
      (fun d obj =>
         forall key v,
           key <> "meta" ->
           default ∅ (exchange d) !! key = Some (JS.Num v) ->
           ((0 <? v)%float = true ->
            obj !! key
            = Some (Number (v / Info.valueFactor
                                  (getValuesInfo Sample.scalePower [sampleLarge] false))))
           /\ ((v <? 0)%float = true -> obj !! key = Some (Number 0)))
      [sampleLarge] rows.
Proof.
  apply (exchange_floor_keeps_imports Sample.modeOrder Sample.modeColor
           Sample.scalePower Sample.getCo2Scale
           [sampleLarge] false ["US"]).
  - discriminate.
  - vm_compute. reflexivity.
  - vm_compute. reflexivity.
  - vm_compute. reflexivity.
Defined.

(** The category "battery storage" of the sample observation. *)
Lemma storage_category_reads_base_name_witness :
  addProduction false 1 (Sample.record (-40)) ∅ "battery storage"
  = Normal (<["battery storage" := Number (-1 * JS.Math_min 0 (-40) / 1)]> ∅)
  /\ (is_finite (-1 * JS.Math_min 0 (-40)) = true ->
      (0 <? 1)%float = true ->
      addProduction true 1 (Sample.record (-40)) ∅ "battery storage"
      = Normal (<["battery storage" :=
                  Number (-1 * JS.Math_min 0 (-40) / 1 * (300 / 1000 / 60))]> ∅)).
Proof.
  apply (storage_category_reads_base_name "battery" 1 (Sample.record (-40)) ∅).
  unfold noSpace. simpl. repeat (constructor; [discriminate|]). constructor.
Defined.

(** The fill of the layers of the sample batch. *)
Lemma layer_fill_on_datapoints_witness :
  exists rows fillOf,
    data (Sample.out (Some [Sample.record (-40)]) true "consumption") = Some rows
    /\ layerFill (Sample.out (Some [Sample.record (-40)]) true "consumption")
       = Some fillOf
    /\ (forall key, key ∉ ["US"] -> fillOf key = FillColor (Sample.modeColor !! key))
    /\ (forall key,
           key ∈ ["US"] ->
           exists f,
             fillOf key = FillByDatapoint f
             /\ forall i d obj,
                  [Sample.record (-40)] !! i = Some d -> rows !! i = Some obj ->
                  f obj = Normal (Sample.getCo2Scale false
                                    (JS.get_or_empty (exchangeCo2Intensities d) key))).
Proof.
  apply (layer_fill_on_datapoints Sample.modeOrder Sample.modeColor
           Sample.scalePower Sample.getCo2Scale
           [Sample.record (-40)] false true "consumption" ["US"]).
  - discriminate.
  - vm_compute. reflexivity.
Defined.

(** An observation without totals between two others. *)
Lemma peak_ignores_missing_totals_witness :
  getValuesInfo Sample.scalePower
    ([Sample.record (-40)] ++ sampleNoTotals :: [sampleLarge]) false
  = getValuesInfo Sample.scalePower ([Sample.record (-40)] ++ [sampleLarge]) false.
Proof.
  apply (peak_ignores_missing_totals Sample.scalePower
           [Sample.record (-40)] [sampleLarge] sampleNoTotals false).
  reflexivity.
Defined.

(** Two observations in either order. *)
Lemma peak_is_order_independent_witness :
  samePeak (maxTotalValue [sampleLarge; Sample.record (-40)] true)
           (maxTotalValue [Sample.record (-40); sampleLarge] true).
Proof.
  apply (peak_is_order_independent
           [sampleLarge; Sample.record (-40)] [Sample.record (-40); sampleLarge] true).
  apply perm_swap.
Defined.

(** A marker update on the datapoint of the sample observation, on a
    mobile, and the marker hide after it. *)
Lemma tooltip_shows_source_record_witness :
  renderTooltip ["US"]
    (handle Sample.getTooltipPosition true (initialState None)
       (MarkerUpdate (10, 20)%Z sampleDatapoint "US"))
  = Some (ExchangeTooltip
            {| mode := "US"; position := (0, 20)%Z;
               zoneData := Some (Meta (Sample.record (-40))) |})
  /\ renderTooltip ["US"]
       (handle Sample.getTooltipPosition true
          (handle Sample.getTooltipPosition true (initialState None)
             (MarkerUpdate (10, 20)%Z sampleDatapoint "US"))
          MarkerHide)
     = None.
Proof.
  apply (tooltip_shows_source_record (Z * Z) Sample.getTooltipPosition
           Sample.modeOrder Sample.modeColor Sample.scalePower Sample.getCo2Scale
           [Sample.record (-40)] false false "consumption" ["US"]
           (Sample.out (Some [Sample.record (-40)]) false "consumption")
           [sampleDatapoint] 0 (Sample.record (-40)) sampleDatapoint true
           (initialState None) (10, 20)%Z "US").
  - vm_compute. reflexivity.
  - vm_compute. reflexivity.
  - reflexivity.
  - reflexivity.
Defined.

(** The two exchange entries of the large observation in either order. *)
Lemma exchange_loop_order_independent_witness :
  forEach (addExchange false 1000 sampleLarge)
    [("US", JS.Num (-30)); ("CA", JS.Null)] ∅
  = forEach (addExchange false 1000 sampleLarge)
      [("CA", JS.Null); ("US", JS.Num (-30))] ∅.
Proof.
  apply (exchange_loop_order_independent false 1000 sampleLarge ∅
           [("US", JS.Num (-30)); ("CA", JS.Null)]
           [("CA", JS.Null); ("US", JS.Num (-30))]).
  - simpl. apply NoDup_cons_2; [|apply NoDup_singleton].
    intros H. apply list_elem_of_singleton in H. discriminate.
  - apply perm_swap.
Defined.

(** The exchange key US in mode "production". *)
Lemma exchange_layers_without_values_witness :
  exists rows keys,
    data (Sample.out (Some [Sample.record (-40)]) false "production") = Some rows
    /\ layerKeys (Sample.out (Some [Sample.record (-40)]) false "production")
       = Some keys
    /\ forall key,
         key ∈ ["US"] ->
         key ∈ keys
         /\ (key ∉ Sample.modeOrder -> key <> "datetime" -> key <> "meta" ->
             Forall2
               (fun d (obj : LayerRecord) =>
                  is_Some (obj !! key)
                  <-> "production" = "consumption"
                      /\ is_Some (default ∅ (exchange d) !! key))
               [Sample.record (-40)] rows).
Proof.
  apply (exchange_layers_without_values Sample.modeOrder Sample.modeColor
           Sample.scalePower Sample.getCo2Scale
           [Sample.record (-40)] false false "production" ["US"]).
  - discriminate.
  - vm_compute. reflexivity.
Defined.

(** ** The emissions conversion on the datapoints *)

Section ConversionProperties.

Variable modeOrder : list string.
Variable modeColor : gmap string string.
Variable scalePower : JS.value -> Format.t.
Variable getCo2Scale : bool -> JS.value -> string.

Local Abbreviation prepare :=
  (prepareGraphData modeOrder modeColor scalePower getCo2Scale).
Local Abbreviation scaleFactor hd em :=
  (Info.valueFactor (getValuesInfo scalePower hd em)).

(** C3, as the source has it.  For a non-empty batch and a positive scale
    factor, in every datapoint that [prepareGraphData] returns: a category or
    an exchange partner whose raw value is not a finite number has its
    property left in power units, the raw value divided by the scale factor
    (floored at zero for a partner), in either display; under emissions
    display a raw value that is a finite number and whose intensity table has
    no entry for the key makes the property NaN.  Values that are not finite
    numbers make nothing throw: a batch none of whose raw values is a finite
    number is returned, with or without its intensity tables. *)
Theorem conversion_skipped_or_nan hd cb em mode ek :
  hd <> [] ->
  (0 <? scaleFactor hd em)%float = true ->
  (forall out,
      prepare (Some hd) cb em mode ek = Normal out ->
      exists rows,
        data out = Some rows /\
        Forall2
          (fun d obj =>
             (forall k,
                 k ∈ modeOrder -> k <> "meta" ->
                 shownExchange mode d !! k = None ->
                 (JS.Number_isFinite (rawValue d k) = false ->
                  obj !! k
                  = Some (Number (JS.ToNumber (rawValue d k) / scaleFactor hd em)))
                 /\ (em = true ->
                     JS.Number_isFinite (rawValue d k) = true ->
                     default ∅ (spec_intensityTable d k) !! spec_intensityKey k = None ->
                     obj !! k = Some (Number nan)))
             /\ (forall key raw,
                    mode = "consumption" -> key <> "meta" ->
                    default ∅ (exchange d) !! key = Some raw ->
                    (JS.Number_isFinite raw = false ->
                     obj !! key
                     = Some (Number (JS.Math_max 0
                                       (JS.ToNumber raw / scaleFactor hd em))))
                    /\ (em = true ->
                        JS.Number_isFinite raw = true ->
                        default ∅ (exchangeCo2Intensities d) !! key = None ->
                        obj !! key = Some (Number nan))))
          hd rows)
  /\ (Forall
        (fun d =>
           (forall k, k ∈ modeOrder -> JS.Number_isFinite (rawValue d k) = false)
           /\ (forall key raw,
                  default ∅ (exchange d) !! key = Some raw ->
                  JS.Number_isFinite raw = false))
        hd ->
      exists out, prepare (Some hd) cb em mode ek = Normal out).
Proof.
  intros Hne Hpos. split.
  - intros out Hout.
    destruct (prepareGraphData_Normal _ _ _ _ _ _ _ _ _ _ Hne Hout)
      as (rows & Hdata & _ & _ & _ & Hrows).
    exists rows. split; [done|].
    eapply Forall2_impl; [exact Hrows|].
    intros d obj Hobj. cbv beta in Hobj.
    pose proof (layerRecord_lookup modeOrder em mode (scaleFactor hd em) d obj)
      as Hlook.
    specialize (fun key => Hlook key Hobj).
    split.
    + intros k Hin Hmeta Hex. rewrite Hlook.
      rewrite bool_decide_eq_false_2, Hex, bool_decide_eq_true_2 by done.
      rewrite (categoryValue_spec em _ d k Hpos). unfold spec_categoryField.
      split.
      * intros Hraw. by rewrite Hraw, andb_false_r.
      * intros -> Hraw Hno. rewrite Hraw.
        unfold spec_intensity, JS.get_or_empty. rewrite Hno.
        cbn [andb JS.neq_null default JS.ToNumber].
        change (nan / 1000 / 60)%float with nan.
        by rewrite FloatFacts.mul_nan.
    + intros key raw Hmode Hmeta Hraw. rewrite Hlook.
      rewrite bool_decide_eq_false_2 by done.
      unfold shownExchange. rewrite bool_decide_eq_true_2, Hraw by done.
      unfold exchangeValue.
      change (((key, raw) : string * JS.value).2) with raw.
      change (((key, raw) : string * JS.value).1) with key.
      split.
      * intros Hnf. by rewrite Hnf.
      * intros -> Hfin Hno. rewrite Hfin.
        unfold JS.get_or_empty. rewrite Hno.
        cbn [andb JS.neq_null default JS.ToNumber].
        change (nan / 1000 / 60)%float with nan.
        by rewrite FloatFacts.mul_nan.
  - intros Hnone. destruct em; [|apply prepareGraphData_power_total].
    destruct (prepare (Some hd) cb true mode ek) as [out|] eqn:E; [by eexists|].
    exfalso. revert E. unfold prepareGraphData.
    destruct hd as [|d0 hd0]; [done|].
    destruct (mapM _ (d0 :: hd0)) as [rows|] eqn:E; [done|]. intros _.
    apply mapM_TypeError_inv in E as (d & Hin & Hthrow).
    apply (layerRecord_TypeError modeOrder mode _ d Hpos) in Hthrow.
    rewrite Forall_forall in Hnone. destruct (Hnone d Hin) as [Hcat Hex].
    destruct Hthrow as [(k & Hk & Hfin & _)|(_ & _ & key & raw & Hraw & Hfin)].
    + by rewrite (Hcat k Hk) in Hfin.
    + by rewrite (Hex key raw Hraw) in Hfin.
Qed.

End ConversionProperties.

(** Under emissions display, in mode "consumption": gas and US without an
    intensity entry, and the observation that has no finite value and no
    intensity table. *)
Lemma conversion_skipped_or_nan_witness :
  (exists rows,
      data (Sample.out (Some [Sample.recordUnknownIntensity]) true "consumption")
      = Some rows /\
      Forall2
        (fun d obj =>
           (forall k,
               k ∈ Sample.modeOrder -> k <> "meta" ->
               shownExchange "consumption" d !! k = None ->
               (JS.Number_isFinite (rawValue d k) = false ->
                obj !! k
                = Some (Number (JS.ToNumber (rawValue d k)
                                / Info.valueFactor
                                    (getValuesInfo Sample.scalePower
                                       [Sample.recordUnknownIntensity] true))))
               /\ (true = true ->
                   JS.Number_isFinite (rawValue d k) = true ->
                   default ∅ (spec_intensityTable d k) !! spec_intensityKey k = None ->
                   obj !! k = Some (Number nan)))
           /\ (forall key raw,
                  "consumption" = "consumption" -> key <> "meta" ->
                  default ∅ (exchange d) !! key = Some raw ->
                  (JS.Number_isFinite raw = false ->
                   obj !! key
                   = Some (Number (JS.Math_max 0
                                     (JS.ToNumber raw
                                      / Info.valueFactor
                                          (getValuesInfo Sample.scalePower
                                             [Sample.recordUnknownIntensity] true)))))
                  /\ (true = true ->
                      JS.Number_isFinite raw = true ->
                      default ∅ (exchangeCo2Intensities d) !! key = None ->
                      obj !! key = Some (Number nan))))
        [Sample.recordUnknownIntensity] rows)
  /\ exists out, Sample.prepare (Some [sampleNoValues]) true "consumption" = Normal out.
Proof.
  split.
  - apply (proj1 (conversion_skipped_or_nan Sample.modeOrder Sample.modeColor
                    Sample.scalePower Sample.getCo2Scale
                    [Sample.recordUnknownIntensity] false true "consumption" ["US"]
                    ltac:(discriminate) eq_refl)).
    vm_compute. reflexivity.
  - apply (proj2 (conversion_skipped_or_nan Sample.modeOrder Sample.modeColor
                    Sample.scalePower Sample.getCo2Scale
                    [sampleNoValues] false true "consumption" ["US"]
                    ltac:(discriminate) eq_refl)).
    constructor; [|constructor]. split.
    + intros k Hk. unfold Sample.modeOrder in Hk.
      repeat (apply elem_of_cons in Hk as [->|Hk]; [reflexivity|]).
      by apply elem_of_nil in Hk.
    + intros key raw Hraw. simpl in Hraw.
      apply lookup_singleton_Some in Hraw as [_ <-]. reflexivity.
Defined.
